(** * Overpass JSON to GeoJSON conversion (core/overpass_client.py)

    A shallow embedding of the conversion functions of the Overpass client
    and the properties their specification states about them.

    The Python code works on the values [json.loads] produces (None, bool,
    int, float, str, list, dict), with duck typing: a missing key, a
    subscript on a value that has none, or a method call on the wrong kind
    of value raises.  The embedding keeps that: values are an inductive
    type, every operation that can raise returns a [result]. *)

From Stdlib Require Import String Ascii Bool ZArith QArith Qcanon DecimalString.
From stdpp Require Import base option list strings gmap.

Local Open Scope string_scope.
Local Open Scope list_scope.

(** ** Parsed JSON values *)

(** A Python value as [response.json()] returns it.  A dict is the list of
    its items in insertion order, with distinct keys.  An int is exact; a
    float is given by the exact rational value of the double: the code
    never computes with numbers, it copies and compares them, and Python
    compares finite numbers by value ([1 == 1.0], [0.0 == -0.0]).  NaN and
    the infinities are not JSON and are left out. *)
#[local] Unset Elimination Schemes.
Inductive json : Type :=
| JNull
| JBool (b : bool)
| JInt (z : Z)
| JFloat (q : Q)
| JStr (s : string)
| JArr (items : list json)
| JObj (fields : list (string * json)).
#[local] Set Elimination Schemes.

(** The items of a dict. *)
Definition dict : Type := list (string * json).

(** [d.get(key)] as an option: [None] when the key is absent. *)
Fixpoint dict_lookup (key : string) (d : dict) : option json :=
  match d with
  | [] => None
  | (k, v) :: rest => if String.eqb k key then Some v else dict_lookup key rest
  end.

(** [key in d] *)
Definition dict_mem (key : string) (d : dict) : bool :=
  match dict_lookup key d with Some _ => true | None => false end.

(** [d.get(key, default)] *)
Definition dict_get (key : string) (default : json) (d : dict) : json :=
  match dict_lookup key d with Some v => v | None => default end.

(** [v is None] *)
Definition is_None (v : json) : bool :=
  match v with JNull => true | _ => false end.

(** The numeric value of a bool, an int or a float ([True == 1]). *)
Definition num_value (v : json) : option Q :=
  match v with
  | JBool true => Some (1 # 1)
  | JBool false => Some (0 # 1)
  | JInt z => Some (inject_Z z)
  | JFloat q => Some q
  | _ => None
  end.

(** Python's [a == b] on parsed JSON values: numbers by value, strings by
    content, lists item by item, dicts as maps (same keys, equal values);
    values of different kinds are unequal. *)
Fixpoint py_eq (a b : json) {struct a} : bool :=
  match a, b with
  | JNull, JNull => true
  | JStr s, JStr t => String.eqb s t
  | JArr xs, JArr ys =>
      (fix items_eq (xs ys : list json) {struct xs} : bool :=
         match xs, ys with
         | [], [] => true
         | x :: xs', y :: ys' => py_eq x y && items_eq xs' ys'
         | _, _ => false
         end) xs ys
  | JObj d, JObj e =>
      Nat.eqb (length d) (length e) &&
      (fix fields_eq (d : list (string * json)) {struct d} : bool :=
         match d with
         | [] => true
         | (k, v) :: d' =>
             match dict_lookup k e with
             | Some w => py_eq v w
             | None => false
             end && fields_eq d'
         end) d
  | _, _ =>
      match num_value a, num_value b with
      | Some p, Some q => Qeq_bool p q
      | _, _ => false
      end
  end.

(** Whether [hash(v)] succeeds: lists and dicts are unhashable. *)
Definition hashable (v : json) : bool :=
  match v with
  | JArr _ | JObj _ => false
  | _ => true
  end.

(** [str(z)] for an int. *)
Definition str_of_int (z : Z) : string :=
  NilZero.string_of_int (Z.to_int z).

(** The one-character strings a [for] loop over a str yields. *)
Fixpoint chars (s : string) : list json :=
  match s with
  | EmptyString => []
  | String c rest => JStr (String c EmptyString) :: chars rest
  end.

(** [needle in haystack] for two strs: substring test. *)
Definition str_contains (needle haystack : string) : bool :=
  match String.index 0 needle haystack with
  | Some _ => true
  | None => false
  end.

(** ** Exceptions *)

(** The exceptions the module can meet.  The text of a built-in exception
    is the interpreter's, so a [RuntimeError] whose message interpolates
    [str(e)] keeps [e] itself next to the message's literal prefix. *)
Inductive exn : Type :=
| KeyError (key : string)
| TypeError
| AttributeError
| RuntimeError (msg : string)
| RuntimeErrorOf (prefix : string) (cause : exn).

Definition is_RuntimeError (e : exn) : bool :=
  match e with
  | RuntimeError _ | RuntimeErrorOf _ _ => true
  | _ => false
  end.

Inductive result (A : Type) : Type :=
| Ok (a : A)
| Raise (e : exn).

Arguments Ok {A} a.
Arguments Raise {A} e.

(** Sequencing: the first exception raised ends the computation. *)
#[global] Instance result_ret : MRet result := fun A a => Ok a.

#[global] Instance result_bind : MBind result := fun A B k c =>
  match c with
  | Ok a => k a
  | Raise e => Raise e
  end.

(** ** Operations that can raise *)

(** [v.get(...)]: only a dict has the method. *)
Definition as_dict (v : json) : result dict :=
  match v with
  | JObj d => Ok d
  | _ => Raise AttributeError
  end.

(** [d[key]] on a dict. *)
Definition dict_item (key : string) (d : dict) : result json :=
  match dict_lookup key d with
  | Some v => Ok v
  | None => Raise (KeyError key)
  end.

(** [v[key]] with a str key, on any value: a dict looks the key up, every
    other kind rejects a str subscript. *)
Definition subscript (v : json) (key : string) : result json :=
  match v with
  | JObj d => dict_item key d
  | _ => Raise TypeError
  end.

(** The values [for x in v] yields: the items of a list, the keys of a
    dict, the characters of a str; other values are not iterable. *)
Definition py_iter (v : json) : result (list json) :=
  match v with
  | JArr items => Ok items
  | JObj d => Ok (map (fun kv => JStr (fst kv)) d)
  | JStr s => Ok (chars s)
  | _ => Raise TypeError
  end.

(** [needle in v] for a str needle. *)
Definition py_contains (needle : string) (v : json) : result bool :=
  match v with
  | JObj d => Ok (dict_mem needle d)
  | JArr items => Ok (existsb (fun x => py_eq x (JStr needle)) items)
  | JStr s => Ok (str_contains needle s)
  | _ => Raise TypeError
  end.

(** ** The node lookup *)

(** The key under which a dict files a hashable value: Python hashes and
    compares numbers by value, so [True], [1] and [1.0] are one key. *)
Inductive hkey : Type :=
| KNone
| KNum (q : Qc)
| KStr (s : string).

#[global] Instance hkey_eq_dec : EqDecision hkey.
Proof. solve_decision. Defined.

#[global] Instance hkey_countable : Countable hkey.
Proof.
  refine (inj_countable'
    (fun k => match k with
              | KNone => inl ()
              | KNum q => inr (inl q)
              | KStr s => inr (inr s)
              end)
    (fun x => match x with
              | inl _ => KNone
              | inr (inl q) => KNum q
              | inr (inr s) => KStr s
              end) _).
  intros []; reflexivity.
Defined.

(** [hash(v)], as the dict needs it for a key. *)
Definition hash_key (v : json) : result hkey :=
  match v with
  | JNull => Ok KNone
  | JBool true => Ok (KNum (Q2Qc (1 # 1)))
  | JBool false => Ok (KNum (Q2Qc (0 # 1)))
  | JInt z => Ok (KNum (Q2Qc (inject_Z z)))
  | JFloat q => Ok (KNum (Q2Qc q))
  | JStr s => Ok (KStr s)
  | JArr _ | JObj _ => Raise TypeError
  end.

(** [nodes]: node id to the dict [{"lat": ..., "lon": ...}]. *)
Abbreviation node_index := (gmap hkey dict).

(** ** The conversion functions *)

Section Conversion.

(** [str(v)] of a float, a list or a dict is the interpreter's [repr]; the
    module only ever formats an element's id with it. *)
Variable py_repr : json -> string.

(** [str(v)], as an f-string interpolates it. *)
Definition py_str (v : json) : string :=
  match v with
  | JNull => "None"
  | JBool true => "True"
  | JBool false => "False"
  | JInt z => str_of_int z
  | JStr s => s
  | JFloat _ | JArr _ | JObj _ => py_repr v
  end.

(** A GeoJSON feature dict. *)
Definition feature (id : string) (geometry_type : string)
    (coordinates : json) (properties : json) : json :=
  JObj [("type", JStr "Feature");
        ("id", JStr id);
        ("geometry", JObj [("type", JStr geometry_type);
                           ("coordinates", coordinates)]);
        ("properties", properties)].

(** [convert_node_to_feature(node)]: [None] stands for Python's None. *)
Definition convert_node_to_feature (node : dict) : option json :=
  let lat := dict_get "lat" JNull node in
  let lon := dict_get "lon" JNull node in
  if is_None lat || is_None lon then None
  else Some (feature ("node/" +:+ py_str (dict_get "id" JNull node))
                     "Point"
                     (JArr [lon; lat])
                     (dict_get "tags" (JObj []) node)).

(** [[[n["lon"], n["lat"]] for n in geometry]] *)
Fixpoint geometry_coordinates (geometry : list json) : result (list json) :=
  match geometry with
  | [] => Ok []
  | n :: rest =>
      lon ← subscript n "lon";
      lat ← subscript n "lat";
      coordinates ← geometry_coordinates rest;
      Ok (JArr [lon; lat] :: coordinates)
  end.

(** The loop over [way["nodes"]], appending to [coordinates]. *)
Fixpoint node_coordinates (node_ids : list json) (nodes : node_index)
    (coordinates : list json) : result (list json) :=
  match node_ids with
  | [] => Ok coordinates
  | node_id :: rest =>
      k ← hash_key node_id;
      match nodes !! k with
      | Some node_data =>
          lon ← dict_item "lon" node_data;
          lat ← dict_item "lat" node_data;
          node_coordinates rest nodes (coordinates ++ [JArr [lon; lat]])
      | None => node_coordinates rest nodes coordinates
      end
  end.

(** The coordinates of a way: from its embedded geometry when it has the
    key, else from its node references, else none. *)
Definition way_coordinates (way : dict) (nodes : node_index)
    : result (list json) :=
  match dict_lookup "geometry" way with
  | Some geometry =>
      items ← py_iter geometry;
      geometry_coordinates items
  | None =>
      match dict_lookup "nodes" way with
      | Some node_ids =>
          items ← py_iter node_ids;
          node_coordinates items nodes []
      | None => Ok []
      end
  end.

(** [len(coordinates) >= 4 and coordinates[0] == coordinates[-1]] *)
Definition is_closed (coordinates : list json) : bool :=
  (4 <=? length coordinates)%nat &&
  py_eq (hd JNull coordinates) (List.last coordinates JNull).

(** The tag test of the area decision, on a tag dict. *)
Definition area_tags (tags : dict) : bool :=
  py_eq (dict_get "area" JNull tags) (JStr "yes")
  || dict_mem "building" tags
  || dict_mem "landuse" tags
  || dict_mem "natural" tags
  || dict_mem "leisure" tags
  || dict_mem "amenity" tags.

(** [is_closed and (tags.get("area") == "yes" or ...)]: the tags are only
    looked at for a closed way. *)
Definition is_area (closed : bool) (tags : json) : result bool :=
  if closed then
    t ← as_dict tags;
    Ok (area_tags t)
  else Ok false.

(** [convert_way_to_feature(way, nodes)] *)
Definition convert_way_to_feature (way : dict) (nodes : node_index)
    : result (option json) :=
  coordinates ← way_coordinates way nodes;
  if (length coordinates <? 2)%nat then Ok None
  else
    let tags := dict_get "tags" (JObj []) way in
    area ← is_area (is_closed coordinates) tags;
    let id := "way/" +:+ py_str (dict_get "id" JNull way) in
    if area : bool then
      Ok (Some (feature id "Polygon" (JArr [JArr coordinates]) tags))
    else
      Ok (Some (feature id "LineString" (JArr coordinates) tags)).

(** The first loop of [convert_overpass_to_geojson]: the node lookup. *)
Fixpoint build_nodes (elements : list json) (nodes : node_index)
    : result node_index :=
  match elements with
  | [] => Ok nodes
  | element :: rest =>
      e ← as_dict element;
      if py_eq (dict_get "type" JNull e) (JStr "node") then
        let entry := [("lat", dict_get "lat" JNull e);
                      ("lon", dict_get "lon" JNull e)] in
        id ← dict_item "id" e;
        k ← hash_key id;
        build_nodes rest (<[k := entry]> nodes)
      else build_nodes rest nodes
  end.

(** What one element contributes in the second loop. *)
Definition convert_element (element : json) (nodes : node_index)
    : result (option json) :=
  e ← as_dict element;
  let element_type := dict_get "type" JNull e in
  if py_eq element_type (JStr "node") then
    Ok (convert_node_to_feature e)
  else if py_eq element_type (JStr "way") then
    convert_way_to_feature e nodes
  else Ok None.

(** The second loop: [features.append(feature)] for each feature made. *)
Fixpoint process_elements (elements : list json) (nodes : node_index)
    (features : list json) : result (list json) :=
  match elements with
  | [] => Ok features
  | element :: rest =>
      made ← convert_element element nodes;
      match made with
      | Some f => process_elements rest nodes (features ++ [f])
      | None => process_elements rest nodes features
      end
  end.

(** [convert_overpass_to_geojson(osm_data)] *)
Definition convert_overpass_to_geojson (osm_data : json) : result json :=
  d ← as_dict osm_data;
  elements ← py_iter (dict_get "elements" (JArr []) d);
  nodes ← build_nodes elements ∅;
  features ← process_elements elements nodes [];
  Ok (JObj [("type", JStr "FeatureCollection");
            ("features", JArr features)]).

(** What [requests.post(...)], [raise_for_status()] and [response.json()]
    come to: one of the two exception classes the function catches by
    name, with the text of [str(e)], or the parsed body. *)
Inductive response : Type :=
| RequestException (text : string)
| JSONDecodeError (text : string)
| Body (osm_data : json).

(** [fetch_osm_geojson]: the result is the GeoJSON dict that the function
    hands to [json.dumps]. *)
Definition fetch_osm_geojson (r : response) : result json :=
  match r with
  | RequestException text =>
      Raise (RuntimeError ("Overpass API request failed: " +:+ text))
  | JSONDecodeError text =>
      Raise (RuntimeError ("Failed to parse Overpass API response: " +:+ text))
  | Body osm_data =>
      let body :=
        present ← py_contains "elements" osm_data;
        if present : bool then convert_overpass_to_geojson osm_data
        else Raise (RuntimeError
                      "Invalid Overpass API response: missing 'elements'") in
      match body with
      | Ok geojson => Ok geojson
      | Raise e =>
          if is_RuntimeError e then Raise e
          else Raise (RuntimeErrorOf "Unexpected error fetching OSM data: " e)
      end
  end.

(** ** The words of the specification *)

(** "The raw payload has the element-list field": it is a mapping with the
    key [elements]. *)
Definition has_element_list (payload : json) : bool :=
  match payload with
  | JObj d => dict_mem "elements" d
  | _ => false
  end.

(** The keys whose presence alone makes a closed path an area. *)
Definition area_keys : list string :=
  ["building"; "landuse"; "natural"; "leisure"; "amenity"].

(** "The tag [area] has exact value [yes], or the tag mapping contains any
    of the keys [building], [landuse], [natural], [leisure], [amenity]". *)
Definition area_tagged (tags : dict) : Prop :=
  dict_lookup "area" tags = Some (JStr "yes") \/
  exists key, key ∈ area_keys /\ is_Some (dict_lookup key tags).

(** "Closed": at least 4 coordinate pairs, the first equal to the last. *)
Definition closed_path (coordinates : list json) : Prop :=
  4 <= length coordinates /\
  exists first final,
    head coordinates = Some first /\ last coordinates = Some final /\
    py_eq first final = true.

(** The entry the node lookup keeps for a node element. *)
Definition node_entry (node : dict) : dict :=
  [("lat", dict_get "lat" JNull node); ("lon", dict_get "lon" JNull node)].

(** The coordinate pair a way gets from an entry of the node lookup. *)
Definition entry_pair (entry : dict) : json :=
  JArr [dict_get "lon" JNull entry; dict_get "lat" JNull entry].

(** The coordinate pair of an embedded geometry entry with both fields. *)
Definition embedded_pair (n : json) : option json :=
  match n with
  | JObj d =>
      match dict_lookup "lat" d, dict_lookup "lon" d with
      | Some lat, Some lon => Some (JArr [lon; lat])
      | _, _ => None
      end
  | _ => None
  end.

(** The feature collection envelope. *)
Definition feature_collection (features : list json) : json :=
  JObj [("type", JStr "FeatureCollection"); ("features", JArr features)].

(** A node element, a way element: dicts whose [type] says so. *)
Definition is_node (e : dict) : bool :=
  py_eq (dict_get "type" JNull e) (JStr "node").

Definition is_way (e : dict) : bool :=
  py_eq (dict_get "type" JNull e) (JStr "way").

(** Every entry of the node lookup is a dict with exactly the keys [lat]
    and [lon]. *)
Definition indexed (nodes : node_index) : Prop :=
  map_Forall (fun _ entry => exists lat lon, entry = [("lat", lat); ("lon", lon)])
    nodes.

(** The element is a node element that files its entry under key [k]. *)
Definition binds (k : hkey) (element : json) : Prop :=
  exists e id,
    element = JObj e /\ is_node e = true /\
    dict_lookup "id" e = Some id /\ hash_key id = Ok k.

(** ** Sample elements *)

(** The key of an int id. *)
Definition int_key (z : Z) : hkey := KNum (Q2Qc (inject_Z z)).

(** A stand-in for the interpreter's [repr] in the closed examples: every
    id in them is an int, which [py_str] prints without it. *)
Definition plain_repr : json -> string := fun _ => "".

(** [{"type": "node", "id": 1, "lat": 35.5, "lon": 139.5,
      "tags": {"name": "A"}}] *)
Definition node_a : dict :=
  [("type", JStr "node"); ("id", JInt 1);
   ("lat", JFloat (71 # 2)); ("lon", JFloat (279 # 2));
   ("tags", JObj [("name", JStr "A")])].

(** [{"type": "node", "id": 3, "lat": 36, "lon": 140}] *)
Definition node_c : dict :=
  [("type", JStr "node"); ("id", JInt 3); ("lat", JInt 36); ("lon", JInt 140)].

(** [{"type": "node", "id": 4}]: a node with neither coordinate. *)
Definition node_bare : dict :=
  [("type", JStr "node"); ("id", JInt 4)].

(** [{"type": "way", "id": 9, "nodes": [1, 2, 3],
      "tags": {"highway": "residential"}}] *)
Definition way_b : dict :=
  [("type", JStr "way"); ("id", JInt 9);
   ("nodes", JArr [JInt 1; JInt 2; JInt 3]);
   ("tags", JObj [("highway", JStr "residential")])].

(** [{"type": "way", "id": 10, "nodes": [4, 4]}] *)
Definition way_bare : dict :=
  [("type", JStr "way"); ("id", JInt 10); ("nodes", JArr [JInt 4; JInt 4])].

(** [{"type": "way", "id": 11, "nodes": [4, 1, 3, 4],
      "tags": {"building": "yes"}}] *)
Definition way_ring_bare : dict :=
  [("type", JStr "way"); ("id", JInt 11);
   ("nodes", JArr [JInt 4; JInt 1; JInt 3; JInt 4]);
   ("tags", JObj [("building", JStr "yes")])].

(** An embedded geometry entry [{"lat": lat, "lon": lon}]. *)
Definition at_ (lat lon : Z) : json :=
  JObj [("lat", JInt lat); ("lon", JInt lon)].

(** A way with the embedded geometry (lon, lat) = (0,0), (1,0), (1,1),
    (0,0), node references besides, and the tag [building=yes]. *)
Definition way_square : dict :=
  [("type", JStr "way"); ("id", JInt 5);
   ("nodes", JArr [JInt 1; JInt 3]);
   ("geometry", JArr [at_ 0 0; at_ 0 1; at_ 1 1; at_ 0 0]);
   ("tags", JObj [("building", JStr "yes")])].

(** The same with three pairs only: (0,0), (1,0), (0,0). *)
Definition way_spike : dict :=
  [("type", JStr "way"); ("id", JInt 6);
   ("geometry", JArr [at_ 0 0; at_ 0 1; at_ 0 0]);
   ("tags", JObj [("building", JStr "yes"); ("area", JStr "yes")])].

(** A way with one embedded pair. *)
Definition way_dot : dict :=
  [("type", JStr "way"); ("id", JInt 7); ("geometry", JArr [at_ 0 0])].

(** The node lookup of a payload with the nodes A and C. *)
Definition nodes_ac : node_index :=
  <[int_key 3 := node_entry node_c]> (<[int_key 1 := node_entry node_a]> ∅).

(** The node lookup of a payload with the nodes A, C and the bare node. *)
Definition nodes_acb : node_index :=
  <[int_key 4 := node_entry node_bare]> nodes_ac.

(** [{"elements": [A, B, C]}] *)
Definition payload_abc : dict :=
  [("elements", JArr [JObj node_a; JObj way_b; JObj node_c])].

(** [{"elements": [{"type": "relation", "id": 12, "members": []}]}] *)
Definition payload_relation : dict :=
  [("elements", JArr [JObj [("type", JStr "relation"); ("id", JInt 12);
                            ("members", JArr [])]])].

(** ** Well-formed elements *)

(** A way whose coordinates resolve without an exception: its embedded
    geometry, when it has the key, is a list of entries with [lat] and
    [lon]; else its node references, when it has the key, are a list of
    hashable values; and its tags, when it has the key, are a dict. *)
Definition way_well_formed (way : dict) : Prop :=
  match dict_lookup "geometry" way with
  | Some geometry =>
      exists entries, geometry = JArr entries /\
                      Forall (fun n => is_Some (embedded_pair n)) entries
  | None =>
      match dict_lookup "nodes" way with
      | Some node_ids =>
          exists ids, node_ids = JArr ids /\
                      Forall (fun id => hashable id = true) ids
      | None => True
      end
  end /\
  exists t, dict_get "tags" (JObj []) way = JObj t.

(** An element the conversion goes through: a dict; when a node, with a
    hashable [id]; when a way, well formed. *)
Definition element_well_formed (element : json) : Prop :=
  exists e,
    element = JObj e /\
    (is_node e = true ->
     exists id, dict_lookup "id" e = Some id /\ hashable id = true) /\
    (is_node e = false -> is_way e = true -> way_well_formed e).

(** ** The settings (core/settings.py) *)

(** [bool(v)]: None, False, zero and the empty str, list and dict are
    false. *)
Definition py_truthy (v : json) : bool :=
  match v with
  | JNull => false
  | JBool b => b
  | JInt z => negb (z =? 0)%Z
  | JFloat q => negb (Qeq_bool q (0 # 1))
  | JStr s => negb (String.eqb s "")
  | JArr items => negb (Nat.eqb (length items) 0)
  | JObj d => negb (Nat.eqb (length d) 0)
  end.

(** The content of a [QSettings] object: the values set, by key. *)
Abbreviation settings_store := (gmap string json).

(** [QSettings().value(key, default)] *)
Definition settings_value (key : string) (default : json)
    (settings : settings_store) : json :=
  match settings !! key with
  | Some v => v
  | None => default
  end.

Definition SETTINGS_API_KEY : string := "osm_ai/openai_api_key".
Definition SETTINGS_SEND_SHORTCUT : string := "osm_ai/send_shortcut".

(** [save_api_key(api_key)] *)
Definition save_api_key (api_key : string) (settings : settings_store)
    : settings_store :=
  <[SETTINGS_API_KEY := JStr api_key]> settings.

(** [load_api_key()]: [JNull] stands for None. *)
Definition load_api_key (settings : settings_store) : json :=
  let api_key := settings_value SETTINGS_API_KEY JNull settings in
  if py_truthy api_key then api_key else JNull.

(** [save_send_shortcut(shortcut)] *)
Definition save_send_shortcut (shortcut : string) (settings : settings_store)
    : settings_store :=
  <[SETTINGS_SEND_SHORTCUT := JStr shortcut]> settings.

(** [v in [s1, s2, ...]] for a list of strs. *)
Definition in_strs (v : json) (strs : list string) : bool :=
  existsb (fun s => py_eq v (JStr s)) strs.

(** [load_send_shortcut()] *)
Definition load_send_shortcut (settings : settings_store) : json :=
  let shortcut := settings_value SETTINGS_SEND_SHORTCUT (JStr "enter") settings in
  if in_strs shortcut ["enter"; "cmd_enter"] then shortcut else JStr "enter".

(** [s.split('_')[0]]: what comes before the first underscore. *)
Fixpoint before_underscore (s : string) : string :=
  match s with
  | EmptyString => EmptyString
  | String c rest =>
      if Ascii.eqb c "_" then EmptyString
      else String c (before_underscore rest)
  end.

(** [get_qgis_language()] of osm_ai_plugin.py: only a str has [split]. *)
Definition get_qgis_language (settings : settings_store) : result string :=
  let locale := settings_value "locale/userLocale" (JStr "en_US") settings in
  if py_truthy locale then
    match locale with
    | JStr s => Ok (before_underscore s)
    | _ => Raise AttributeError
    end
  else Ok "en".

(** ** The reply of the language model (core/llm_client.py) *)

(** [json.loads] on a str: [None] when it raises JSONDecodeError. *)
Variable json_loads : string -> option json.

(** [len(v) == 0] and [v[0]] in one: [Ok None] when the length is 0, else
    the first item of a list or the first character of a str; a non-empty
    dict has no key [0] (the [KeyError] holds [str(0)]), other values have
    no length. *)
Definition first_of (v : json) : result (option json) :=
  match v with
  | JArr [] => Ok None
  | JArr (x :: _) => Ok (Some x)
  | JStr EmptyString => Ok None
  | JStr (String c _) => Ok (Some (JStr (String c EmptyString)))
  | JObj [] => Ok None
  | JObj (_ :: _) => Raise (KeyError "0")
  | _ => Raise TypeError
  end.

(** [json.loads(content)] inside its own [try]: a JSONDecodeError becomes
    the RuntimeError with the content in its message; a content that is
    not a str is a TypeError, which that [try] does not catch. *)
Definition parse_content (content : json) : result json :=
  match content with
  | JStr text =>
      match json_loads text with
      | Some parsed => Ok parsed
      | None =>
          Raise (RuntimeError
                   ("Failed to parse LLM response as JSON: " +:+ text))
      end
  | _ => Raise TypeError
  end.

Definition required_fields : list string :=
  ["description"; "overpass_query"; "expected_geometry"; "notes"].

(** The loop [for field in required_fields: if field not in parsed: raise]. *)
Fixpoint check_fields (fields : list string) (parsed : json) : result unit :=
  match fields with
  | [] => Ok ()
  | field :: rest =>
      present ← py_contains field parsed;
      if present : bool then check_fields rest parsed
      else Raise (RuntimeError
                    ("Missing required field in LLM response: " +:+ field))
  end.

(** The validation of the parsed reply, which is returned as it is. *)
Definition validate_reply (parsed : json) : result json :=
  present ← py_contains "mode" parsed;
  if negb present then
    Raise (RuntimeError "Missing 'mode' field in LLM response")
  else
    mode ← subscript parsed "mode";
    if py_eq mode (JStr "chat") then
      has_message ← py_contains "message" parsed;
      if has_message : bool then Ok parsed
      else Raise (RuntimeError "Missing 'message' field in chat mode response")
    else if py_eq mode (JStr "query") then
      _ ← check_fields required_fields parsed;
      query ← subscript parsed "overpass_query";
      if py_truthy query then Ok parsed
      else Raise (RuntimeError "Empty overpass_query in LLM response")
    else
      Raise (RuntimeError ("Invalid mode in LLM response: " +:+ py_str mode)).

(** From the parsed body of the API response to the validated reply. *)
Definition reply_of_body (body : json) : result json :=
  present ← py_contains "choices" body;
  if negb present then
    Raise (RuntimeError "Invalid response from OpenAI API: no choices")
  else
    choices ← subscript body "choices";
    first ← first_of choices;
    match first with
    | None => Raise (RuntimeError "Invalid response from OpenAI API: no choices")
    | Some choice =>
        message ← subscript choice "message";
        content ← subscript message "content";
        parsed ← parse_content content;
        validate_reply parsed
    end.

(** [call_llm_for_overpass]: [env_key] is [os.environ.get("OPENAI_API_KEY")],
    [r] what the request and [response.json()] come to.  The message, the
    bounding box and the history only go into the request; building it
    (lines 141-167, before the [try]) is taken to succeed, as it does for
    arguments of the annotated types, a 4-tuple and a list of JSON
    values. *)
Definition call_llm_for_overpass (env_key : option string)
    (settings : settings_store) (r : response) : result json :=
  let api_key := match env_key with Some s => JStr s | None => JNull end in
  let api_key := if py_truthy api_key then api_key else load_api_key settings in
  if negb (py_truthy api_key) then
    Raise (RuntimeError
             ("OpenAI API key not found. Set OPENAI_API_KEY environment variable "
              +:+ "or configure it in plugin settings."))
  else
    match r with
    | RequestException text =>
        Raise (RuntimeError ("OpenAI API request failed: " +:+ text))
    | JSONDecodeError text =>
        Raise (RuntimeError ("Unexpected error calling LLM: " +:+ text))
    | Body body =>
        match reply_of_body body with
        | Ok parsed => Ok parsed
        | Raise e =>
            if is_RuntimeError e then Raise e
            else Raise (RuntimeErrorOf "Unexpected error calling LLM: " e)
        end
    end.

(** ** Sample replies and settings *)

(** The text [{"mode": "chat", "message": "Hello"}], with the double quote
    written by its code. *)
Definition quoted (s : string) : string :=
  String (ascii_of_nat 34) (s +:+ String (ascii_of_nat 34) EmptyString).

Definition chat_text : string :=
  "{" +:+ quoted "mode" +:+ ": " +:+ quoted "chat" +:+ ", "
      +:+ quoted "message" +:+ ": " +:+ quoted "Hello" +:+ "}".

Definition chat_reply : json :=
  JObj [("mode", JStr "chat"); ("message", JStr "Hello")].

(** What [json.loads] does on the sample text; any other text is taken
    as not JSON. *)
Definition sample_loads (text : string) : option json :=
  if String.eqb text chat_text then Some chat_reply else None.

(** An API response whose first choice has the sample text as content. *)
Definition chat_body : json :=
  JObj [("choices",
         JArr [JObj [("message", JObj [("role", JStr "assistant");
                                       ("content", JStr chat_text)])]])].

(** Settings with a key and a locale. *)
Definition sample_settings : settings_store :=
  <[SETTINGS_API_KEY := JStr "sk-test"]>
    (<["locale/userLocale" := JStr "ja_JP"]> ∅).

(** The features of the payload [[A, B, C]]. *)
Definition features_abc : list json :=
  [feature "node/1" "Point" (JArr [JFloat (279 # 2); JFloat (71 # 2)])
     (JObj [("name", JStr "A")]);
   feature "way/9" "LineString"
     (JArr [JArr [JFloat (279 # 2); JFloat (71 # 2)]; JArr [JInt 140; JInt 36]])
     (JObj [("highway", JStr "residential")]);
   feature "node/3" "Point" (JArr [JInt 140; JInt 36]) (JObj [])].

(** ** Basic facts about the Python operations *)

Lemma bind_Ok {A B : Type} (a : A) (k : A -> result B) :
  (Ok a ≫= k) = k a.
Proof. reflexivity. Qed.

Lemma bind_inv_Ok {A B : Type} (c : result A) (k : A -> result B) (b : B) :
  (c ≫= k) = Ok b -> exists a, c = Ok a /\ k a = Ok b.
Proof. destruct c as [a|e]; simpl; [eauto | discriminate]. Qed.

(** Only the str with the same content equals a str. *)
Lemma py_eq_str (v : json) (s : string) :
  py_eq v (JStr s) = true <-> v = JStr s.
Proof.
  destruct v as [| [] | | | t | |]; simpl; try (split; [discriminate | congruence]).
  rewrite String.eqb_eq. split; congruence.
Qed.

Lemma dict_mem_is_Some (key : string) (d : dict) :
  dict_mem key d = true <-> is_Some (dict_lookup key d).
Proof.
  unfold dict_mem. destruct (dict_lookup key d) as [v|]; split; intros H.
  - by exists v.
  - reflexivity.
  - discriminate.
  - by destruct H.
Qed.

Lemma dict_get_lookup (key : string) (v : json) (d : dict) :
  dict_lookup key d = Some v -> forall default, dict_get key default d = v.
Proof. intros H default. unfold dict_get. by rewrite H. Qed.

(** The tag test of the code is the tag condition of the specification. *)
Lemma area_tags_spec (tags : dict) :
  area_tags tags = true <-> area_tagged tags.
Proof.
  unfold area_tags, area_tagged, area_keys.
  rewrite !orb_true_iff, py_eq_str, !dict_mem_is_Some. split.
  - intros [[[[[H|H]|H]|H]|H]|H].
    + left. unfold dict_get in H. destruct (dict_lookup "area" tags); congruence.
    + right. exists "building". split; [set_solver | done].
    + right. exists "landuse". split; [set_solver | done].
    + right. exists "natural". split; [set_solver | done].
    + right. exists "leisure". split; [set_solver | done].
    + right. exists "amenity". split; [set_solver | done].
  - intros [H | (key & Hkey & H)].
    + do 5 left. by apply dict_get_lookup.
    + repeat (apply elem_of_cons in Hkey as [-> | Hkey]); [tauto .. |].
      by apply elem_of_nil in Hkey.
Qed.

(** [coordinates[-1]] on a non-empty list is its last item. *)
Lemma last_negative_index (x : json) (l : list json) (default : json) :
  last (x :: l) = Some (List.last (x :: l) default).
Proof.
  revert x. induction l as [| y l IH]; intros x; [reflexivity |].
  change (last (y :: l) = Some (List.last (y :: l) default)). apply IH.
Qed.

(** The closure test of the code is the closure of the specification. *)
Lemma is_closed_spec (coordinates : list json) :
  is_closed coordinates = true <-> closed_path coordinates.
Proof.
  unfold is_closed, closed_path.
  rewrite andb_true_iff, Nat.leb_le. split.
  - intros [Hlen Heq]. split; [done |].
    destruct coordinates as [| c rest]; [simpl in Hlen; lia |].
    exists c, (List.last (c :: rest) JNull).
    split; [reflexivity |]. split; [apply last_negative_index | exact Heq].
  - intros [Hlen (first & final & Hfirst & Hfinal & Heq)]. split; [done |].
    destruct coordinates as [| c rest]; [done |].
    rewrite (last_negative_index c rest JNull) in Hfinal.
    simpl in Hfirst. injection Hfirst as ->. injection Hfinal as <-.
    exact Heq.
Qed.

(** ** The path converter *)

(** What [convert_way_to_feature] returns once the coordinates are known
    and there are at least two of them. *)
Lemma convert_way_to_feature_resolved (way : dict) (nodes : node_index)
    (coordinates : list json) :
  way_coordinates way nodes = Ok coordinates ->
  2 <= length coordinates ->
  convert_way_to_feature way nodes =
    (area ← is_area (is_closed coordinates) (dict_get "tags" (JObj []) way);
     Ok (Some (if area : bool
               then feature ("way/" +:+ py_str (dict_get "id" JNull way))
                      "Polygon" (JArr [JArr coordinates])
                      (dict_get "tags" (JObj []) way)
               else feature ("way/" +:+ py_str (dict_get "id" JNull way))
                      "LineString" (JArr coordinates)
                      (dict_get "tags" (JObj []) way)))).
Proof.
  intros Hcoords Hlen. unfold convert_way_to_feature.
  rewrite Hcoords, bind_Ok.
  destruct (Nat.ltb_spec (length coordinates) 2) as [Hlt | _]; [lia |].
  destruct (is_area _ _) as [[] | e]; reflexivity.
Qed.

(** C6: a path element whose resolved coordinate sequence has fewer than
    two coordinate pairs gives no feature: the path converter returns
    None, it does not raise. *)
Theorem short_path_gives_no_feature (way : dict) (nodes : node_index)
    (coordinates : list json) :
  way_coordinates way nodes = Ok coordinates ->
  length coordinates < 2 ->
  convert_way_to_feature way nodes = Ok None.
Proof.
  intros Hcoords Hlen. unfold convert_way_to_feature.
  rewrite Hcoords, bind_Ok.
  destruct (Nat.ltb_spec (length coordinates) 2) as [_ | Hge]; [reflexivity | lia].
Qed.

(** C4: a path element is treated as closed exactly when its resolved
    coordinate sequence has at least 4 pairs and the first pair equals the
    last one by value; the converter makes a Polygon only of a closed
    path, and a path of exactly 3 coordinates becomes a LineString
    whatever its tags and whatever its first and last pair are. *)
Theorem closed_iff_four_pairs_and_equal_ends (way : dict)
    (nodes : node_index) (coordinates : list json) :
  way_coordinates way nodes = Ok coordinates ->
  (is_closed coordinates = true <-> closed_path coordinates) /\
  (forall id ring properties,
     convert_way_to_feature way nodes =
       Ok (Some (feature id "Polygon" ring properties)) ->
     closed_path coordinates) /\
  (length coordinates = 3 ->
   convert_way_to_feature way nodes =
     Ok (Some (feature ("way/" +:+ py_str (dict_get "id" JNull way))
                 "LineString" (JArr coordinates)
                 (dict_get "tags" (JObj []) way)))).
Proof.
  intros Hcoords. split; [apply is_closed_spec |]. split.
  - intros id ring properties Hpolygon.
    apply is_closed_spec.
    destruct (Nat.lt_ge_cases (length coordinates) 2) as [Hlt | Hge].
    { unfold convert_way_to_feature in Hpolygon.
      rewrite Hcoords, bind_Ok in Hpolygon.
      destruct (Nat.ltb_spec (length coordinates) 2); [discriminate | lia]. }
    rewrite (convert_way_to_feature_resolved _ _ _ Hcoords Hge) in Hpolygon.
    destruct (is_closed coordinates); [reflexivity |].
    simpl in Hpolygon. unfold feature in Hpolygon. discriminate.
  - intros Hlen.
    rewrite (convert_way_to_feature_resolved _ _ _ Hcoords) by lia.
    unfold is_closed. rewrite Hlen. reflexivity.
Qed.

(** C5: a closed path element is an Area Feature exactly when its tag
    mapping has [area] with the value [yes] or has one of the keys
    [building], [landuse], [natural], [leisure], [amenity]; every other
    closed path, and every path that is not closed and has at least 2
    resolved coordinates, is a Line Feature.  The Polygon's coordinates
    are the sequence inside one more list (one ring), the LineString's
    are the sequence itself. *)
Theorem area_or_line (way : dict) (nodes : node_index)
    (coordinates : list json) :
  way_coordinates way nodes = Ok coordinates ->
  2 <= length coordinates ->
  let id := "way/" +:+ py_str (dict_get "id" JNull way) in
  let tags := dict_get "tags" (JObj []) way in
  (forall t, closed_path coordinates -> tags = JObj t ->
     (area_tagged t ->
      convert_way_to_feature way nodes =
        Ok (Some (feature id "Polygon" (JArr [JArr coordinates]) tags))) /\
     (~ area_tagged t ->
      convert_way_to_feature way nodes =
        Ok (Some (feature id "LineString" (JArr coordinates) tags)))) /\
  (~ closed_path coordinates ->
   convert_way_to_feature way nodes =
     Ok (Some (feature id "LineString" (JArr coordinates) tags))).
Proof.
  intros Hcoords Hlen id tags.
  rewrite (convert_way_to_feature_resolved _ _ _ Hcoords Hlen).
  fold id tags. split.
  - intros t Hclosed Htags.
    apply is_closed_spec in Hclosed. rewrite Hclosed, Htags. simpl.
    pose proof (area_tags_spec t) as Harea.
    destruct (area_tags t); split; intros H; try reflexivity.
    + destruct H. by apply Harea.
    + apply Harea in H. discriminate.
  - intros Hopen.
    destruct (is_closed coordinates) eqn:Hclosed; [| reflexivity].
    destruct Hopen. by apply is_closed_spec.
Qed.

(** ** The point converter *)

(** C3: a node element whose latitude and longitude are both present and
    not null becomes a Point feature with the id [node/<id>], the
    coordinate pair [[lon, lat]] and the element's tags as properties
    (an empty mapping when it has none); a node element whose latitude or
    longitude is missing or null gives no feature. *)
Theorem point_feature_of_node (node : dict) :
  (forall lat lon,
     dict_lookup "lat" node = Some lat -> dict_lookup "lon" node = Some lon ->
     lat <> JNull -> lon <> JNull ->
     convert_node_to_feature node =
       Some (feature ("node/" +:+ py_str (dict_get "id" JNull node))
               "Point" (JArr [lon; lat])
               (default (JObj []) (dict_lookup "tags" node)))) /\
  (dict_lookup "lat" node = None \/ dict_lookup "lat" node = Some JNull \/
   dict_lookup "lon" node = None \/ dict_lookup "lon" node = Some JNull ->
   convert_node_to_feature node = None) /\
  (forall z, dict_lookup "id" node = Some (JInt z) ->
     py_str (dict_get "id" JNull node) = str_of_int z).
Proof.
  unfold convert_node_to_feature, dict_get. split; [| split].
  - intros lat lon -> -> Hlat Hlon.
    destruct lat; try done; destruct lon; try done.
  - intros [-> | [-> | [-> | ->]]]; try reflexivity;
      by destruct (dict_lookup "lat" node) as [[]|].
  - by intros z ->.
Qed.

(** ** Resolving the coordinates of a way *)

Lemma build_nodes_indexed (elements : list json) :
  forall start nodes,
    indexed start -> build_nodes elements start = Ok nodes -> indexed nodes.
Proof.
  induction elements as [| element rest IH]; intros start nodes Hstart Hbuild.
  - simpl in Hbuild. by injection Hbuild as <-.
  - simpl in Hbuild.
    apply bind_inv_Ok in Hbuild as (e & _ & Hbuild).
    destruct (py_eq _ _); [| by eapply IH].
    apply bind_inv_Ok in Hbuild as (id & _ & Hbuild).
    apply bind_inv_Ok in Hbuild as (k & _ & Hbuild).
    eapply IH; [| exact Hbuild].
    apply map_Forall_insert_2; [by eexists _, _ | exact Hstart].
Qed.

Lemma build_nodes_from_empty_indexed (elements : list json) (nodes : node_index) :
  build_nodes elements ∅ = Ok nodes -> indexed nodes.
Proof. apply build_nodes_indexed, map_Forall_empty. Qed.

(** The loop over the node references: a reference found in the lookup
    appends its pair, a reference not found appends nothing. *)
Lemma node_coordinates_spec (nodes : node_index) (ids : list json)
    (keys : list hkey) :
  indexed nodes ->
  Forall2 (fun id k => hash_key id = Ok k) ids keys ->
  forall coordinates,
    node_coordinates ids nodes coordinates =
      Ok (coordinates ++ omap (fun k => entry_pair <$> nodes !! k) keys).
Proof.
  intros Hix Hkeys.
  induction Hkeys as [| id k ids keys Hk _ IH]; intros coordinates; simpl.
  - by rewrite app_nil_r.
  - rewrite Hk, bind_Ok.
    destruct (nodes !! k) as [entry |] eqn:Hentry; simpl; [| apply IH].
    destruct (Hix k entry Hentry) as (lat & lon & ->). simpl.
    rewrite IH, <- app_assoc. reflexivity.
Qed.

(** A loop that ended normally hashed every reference. *)
Lemma node_coordinates_hashed (nodes : node_index) (ids : list json) :
  forall coordinates out,
    node_coordinates ids nodes coordinates = Ok out ->
    exists keys, Forall2 (fun id k => hash_key id = Ok k) ids keys.
Proof.
  induction ids as [| id ids IH]; intros coordinates out Hout.
  - exists []. constructor.
  - simpl in Hout. apply bind_inv_Ok in Hout as (k & Hk & Hout).
    assert (exists c out', node_coordinates ids nodes c = Ok out')
      as (c & out' & Hrest).
    { destruct (nodes !! k); [| by eauto].
      apply bind_inv_Ok in Hout as (lon & _ & Hout).
      apply bind_inv_Ok in Hout as (lat & _ & Hout). eauto. }
    destruct (IH _ _ Hrest) as (keys & Hkeys).
    exists (k :: keys). by constructor.
Qed.

(** The coordinates of a way that has no embedded geometry. *)
Lemma way_coordinates_by_reference (way : dict) (nodes : node_index)
    (ids : list json) :
  dict_lookup "geometry" way = None ->
  dict_lookup "nodes" way = Some (JArr ids) ->
  way_coordinates way nodes = node_coordinates ids nodes [].
Proof. intros Hg Hn. unfold way_coordinates. by rewrite Hg, Hn. Qed.

(** C7: when a path element is resolved through the node lookup, a
    referenced identifier that the lookup does not have is left out of the
    coordinate sequence: nothing is put in its place and nothing is
    raised.  The sequence is, in reference order, the pair of every
    identifier the lookup has, and the converter goes on with it: no
    feature below 2 pairs, a LineString over 2 or 3 pairs; so three
    references of which only the first and the last are in the lookup
    give a LineString of 2 points. *)
Theorem missing_references_are_omitted (elements : list json)
    (nodes : node_index) (way : dict) (ids : list json) (keys : list hkey) :
  build_nodes elements ∅ = Ok nodes ->
  dict_lookup "geometry" way = None ->
  dict_lookup "nodes" way = Some (JArr ids) ->
  Forall2 (fun id k => hash_key id = Ok k) ids keys ->
  let coordinates := omap (fun k => entry_pair <$> nodes !! k) keys in
  let id := "way/" +:+ py_str (dict_get "id" JNull way) in
  let tags := dict_get "tags" (JObj []) way in
  way_coordinates way nodes = Ok coordinates /\
  (length coordinates < 2 -> convert_way_to_feature way nodes = Ok None) /\
  (2 <= length coordinates -> length coordinates < 4 ->
   convert_way_to_feature way nodes =
     Ok (Some (feature id "LineString" (JArr coordinates) tags))) /\
  (forall k1 k2 k3 first final,
     keys = [k1; k2; k3] ->
     nodes !! k1 = Some first -> nodes !! k2 = None ->
     nodes !! k3 = Some final ->
     convert_way_to_feature way nodes =
       Ok (Some (feature id "LineString"
                   (JArr [entry_pair first; entry_pair final]) tags))).
Proof.
  intros Hbuild Hg Hn Hkeys coordinates id tags.
  assert (way_coordinates way nodes = Ok coordinates) as Hcoords.
  { rewrite (way_coordinates_by_reference _ _ _ Hg Hn).
    apply (node_coordinates_spec nodes ids keys);
      [by eapply build_nodes_from_empty_indexed | exact Hkeys]. }
  assert (2 <= length coordinates -> length coordinates < 4 ->
          convert_way_to_feature way nodes =
            Ok (Some (feature id "LineString" (JArr coordinates) tags)))
    as Hline.
  { intros Hge Hlt.
    rewrite (convert_way_to_feature_resolved _ _ _ Hcoords Hge).
    unfold is_closed.
    destruct (Nat.leb_spec 4 (length coordinates)) as [Hle | _]; [lia |].
    reflexivity. }
  split; [exact Hcoords |]. split; [| split; [exact Hline |]].
  - intros Hlt. unfold convert_way_to_feature.
    rewrite Hcoords, bind_Ok.
    by destruct (Nat.ltb_spec (length coordinates) 2); [| lia].
  - intros k1 k2 k3 first final Hk H1 H2 H3.
    assert (coordinates = [entry_pair first; entry_pair final]) as Heq.
    { unfold coordinates. rewrite Hk. simpl. by rewrite H1, H2, H3. }
    rewrite <- Heq. apply Hline; rewrite Heq; simpl; lia.
Qed.

(** The comprehension over the embedded geometry. *)
Lemma geometry_coordinates_spec (entries coordinates : list json) :
  Forall2 (fun n c => embedded_pair n = Some c) entries coordinates ->
  geometry_coordinates entries = Ok coordinates.
Proof.
  induction 1 as [| n c entries coordinates Hn _ IH]; [reflexivity |].
  simpl. destruct n as [| | | | | | d]; try discriminate. simpl in *.
  unfold dict_item.
  destruct (dict_lookup "lat" d) as [lat |]; [| discriminate].
  destruct (dict_lookup "lon" d) as [lon |]; [| discriminate].
  injection Hn as <-. simpl. by rewrite IH.
Qed.

(** C8: a path element that carries embedded coordinate pairs has exactly
    those pairs as its coordinate sequence, each turned from (lat, lon)
    into [[lon, lat]]; its node references and the node lookup play no
    part, so any element with the same embedded geometry resolves to the
    same sequence under any lookup. *)
Theorem embedded_geometry_has_priority (way : dict) (nodes : node_index)
    (entries coordinates : list json) :
  dict_lookup "geometry" way = Some (JArr entries) ->
  Forall2 (fun n c => embedded_pair n = Some c) entries coordinates ->
  way_coordinates way nodes = Ok coordinates /\
  (forall way' nodes',
     dict_lookup "geometry" way' = Some (JArr entries) ->
     way_coordinates way' nodes' = Ok coordinates).
Proof.
  intros Hg Hpairs.
  assert (forall w n, dict_lookup "geometry" w = Some (JArr entries) ->
                      way_coordinates w n = Ok coordinates) as Hany.
  { intros w n Hw. unfold way_coordinates. rewrite Hw. simpl.
    by apply geometry_coordinates_spec. }
  split; [by apply Hany | exact Hany].
Qed.

(** ** The orchestrator *)

(** The second loop appends, in element order, the feature of every
    element that has one. *)
Lemma process_elements_spec (nodes : node_index) (elements : list json)
    (made : list (option json)) :
  Forall2 (fun element m => convert_element element nodes = Ok m) elements made ->
  forall features,
    process_elements elements nodes features = Ok (features ++ omap id made).
Proof.
  induction 1 as [| element m elements made Hm _ IH]; intros features; simpl.
  - by rewrite app_nil_r.
  - rewrite Hm, bind_Ok. destruct m as [f |]; simpl; [| apply IH].
    rewrite IH, <- app_assoc. reflexivity.
Qed.

(** C9: the feature collection lists the features in the order of the
    elements they come from: when the i-th element gives the optional
    feature [made_i], the output is the sequence of the features present
    in [made_1, made_2, ...], so elements [A, B, C] that all convert give
    [feature of A, feature of B, feature of C]. *)
Theorem features_keep_element_order (payload : dict) (elements : list json)
    (nodes : node_index) (made : list (option json)) :
  py_iter (dict_get "elements" (JArr []) payload) = Ok elements ->
  build_nodes elements ∅ = Ok nodes ->
  Forall2 (fun element m => convert_element element nodes = Ok m) elements made ->
  convert_overpass_to_geojson (JObj payload) =
    Ok (feature_collection (omap id made)) /\
  (forall fa fb fc, made = [Some fa; Some fb; Some fc] ->
     convert_overpass_to_geojson (JObj payload) =
       Ok (feature_collection [fa; fb; fc])).
Proof.
  intros Hiter Hbuild Hmade.
  assert (convert_overpass_to_geojson (JObj payload) =
            Ok (feature_collection (omap id made))) as Hout.
  { unfold convert_overpass_to_geojson. simpl.
    rewrite Hiter, bind_Ok, Hbuild, bind_Ok.
    by rewrite (process_elements_spec nodes elements made Hmade []). }
  split; [exact Hout |]. intros fa fb fc ->. exact Hout.
Qed.

(** An unsupported kind of element gives no feature and raises nothing. *)
Lemma convert_element_other_kind (e : dict) (nodes : node_index) :
  is_node e = false -> is_way e = false ->
  convert_element (JObj e) nodes = Ok None.
Proof.
  unfold is_node, is_way, convert_element. simpl. by intros -> ->.
Qed.

(** The first loop passes over an element that is not a node. *)
Lemma build_nodes_other_kind (e : dict) (rest : list json) (nodes : node_index) :
  is_node e = false ->
  build_nodes (JObj e :: rest) nodes = build_nodes rest nodes.
Proof. unfold is_node. simpl. by intros ->. Qed.

(** A payload whose only element is of an unsupported kind, such as a
    relation, converts to the empty feature collection. *)
Lemma only_unsupported_element (payload e : dict) :
  dict_lookup "elements" payload = Some (JArr [JObj e]) ->
  is_node e = false -> is_way e = false ->
  convert_overpass_to_geojson (JObj payload) = Ok (feature_collection []).
Proof.
  intros Hels Hnode Hway. unfold convert_overpass_to_geojson. simpl.
  rewrite (dict_get_lookup _ _ _ Hels). simpl py_iter. rewrite bind_Ok.
  rewrite (build_nodes_other_kind _ _ _ Hnode). simpl build_nodes.
  rewrite bind_Ok. simpl process_elements.
  by rewrite (convert_element_other_kind _ _ Hnode Hway).
Qed.

(** Called on a dict without the key [elements], the converter itself
    takes the default [[]] and returns the empty collection: the check for
    the key is made by its caller, [fetch_osm_geojson]. *)
Lemma convert_overpass_to_geojson_default (payload : dict) :
  dict_lookup "elements" payload = None ->
  convert_overpass_to_geojson (JObj payload) = Ok (feature_collection []).
Proof.
  intros Hels. unfold convert_overpass_to_geojson, dict_get. simpl.
  by rewrite Hels.
Qed.

(** C1, as the code has it: a raw payload that lacks the element-list
    field makes [fetch_osm_geojson] fail with a RuntimeError and never
    return a feature collection.  For a mapping it is the precondition
    error of the explicit check, "Invalid Overpass API response: missing
    'elements'", raised before the converter is called; for a body that
    is not a mapping it is that error or the "Unexpected error fetching
    OSM data" RuntimeError.  The converter makes no such check: called on
    a mapping without the field it takes the default and returns the
    empty feature collection. *)
Theorem fetch_rejects_missing_element_list (osm_data : json) :
  has_element_list osm_data = false ->
  (exists e,
     fetch_osm_geojson (Body osm_data) = Raise e /\
     is_RuntimeError e = true /\
     (e = RuntimeError "Invalid Overpass API response: missing 'elements'" \/
      exists cause,
        e = RuntimeErrorOf "Unexpected error fetching OSM data: " cause)) /\
  (forall d, osm_data = JObj d ->
     fetch_osm_geojson (Body osm_data) =
       Raise (RuntimeError "Invalid Overpass API response: missing 'elements'") /\
     convert_overpass_to_geojson osm_data = Ok (feature_collection [])).
Proof.
  intros Hlacks. split.
  - destruct osm_data as [| b | z | q | s | items | d]; simpl.
    1-4: eexists; split; [reflexivity |]; split; [reflexivity |];
         right; by eexists.
    + destruct (str_contains "elements" s);
        eexists; (split; [reflexivity |]); (split; [reflexivity |]);
        [right; by eexists | by left].
    + destruct (existsb _ items);
        eexists; (split; [reflexivity |]); (split; [reflexivity |]);
        [right; by eexists | by left].
    + simpl in Hlacks. rewrite Hlacks.
      eexists. split; [reflexivity |]. split; [reflexivity | by left].
  - intros d ->. simpl in Hlacks. split.
    + simpl. by rewrite Hlacks.
    + apply convert_overpass_to_geojson_default.
      unfold dict_mem in Hlacks.
      by destruct (dict_lookup "elements" d).
Qed.

(** C2, at an element the conversion does not survive: a way whose
    embedded geometry list has a null entry (or an entry without [lon])
    makes the whole conversion raise, and [fetch_osm_geojson] turn that
    into its "Unexpected error" RuntimeError; the element is not dropped
    and the other elements are lost with it. *)
Theorem malformed_geometry_entry_raises :
  let good := JObj [("lat", JInt 1); ("lon", JInt 2)] in
  let way_with entry :=
    JObj [("type", JStr "way"); ("id", JInt 1);
          ("geometry", JArr [entry; good; good])] in
  let node := JObj [("type", JStr "node"); ("id", JInt 7);
                    ("lat", JInt 1); ("lon", JInt 2)] in
  let payload entry := JObj [("elements", JArr [node; way_with entry])] in
  convert_overpass_to_geojson (payload JNull) = Raise TypeError /\
  convert_overpass_to_geojson (payload (JObj [("lat", JInt 1)])) =
    Raise (KeyError "lon") /\
  fetch_osm_geojson (Body (payload JNull)) =
    Raise (RuntimeErrorOf "Unexpected error fetching OSM data: " TypeError).
Proof. repeat split; vm_compute; reflexivity. Qed.

(** ** Nodes without coordinates in the node lookup *)

Lemma build_nodes_app (before after : list json) :
  forall start,
    build_nodes (before ++ after) start =
      (nodes ← build_nodes before start; build_nodes after nodes).
Proof.
  induction before as [| element before IH]; intros start; [reflexivity |].
  simpl. destruct (as_dict element) as [e | err]; [| reflexivity]. simpl.
  destruct (py_eq _ _); [| apply IH].
  destruct (dict_item "id" e) as [id | err]; [| reflexivity]. simpl.
  destruct (hash_key id) as [k | err]; [| reflexivity]. simpl. apply IH.
Qed.

(** Elements that do not file under [k] leave the entry of [k] alone. *)
Lemma build_nodes_keeps (k : hkey) (entry : dict) (after : list json) :
  Forall (fun element => ~ binds k element) after ->
  forall start nodes,
    start !! k = Some entry ->
    build_nodes after start = Ok nodes ->
    nodes !! k = Some entry.
Proof.
  induction 1 as [| element after Hfree _ IH]; intros start nodes Hk Hbuild.
  - simpl in Hbuild. by injection Hbuild as <-.
  - simpl in Hbuild.
    apply bind_inv_Ok in Hbuild as (e & He & Hbuild).
    destruct element as [| | | | | | e']; try discriminate.
    injection He as ->.
    destruct (py_eq _ _) eqn:Hnode; [| by eapply IH].
    apply bind_inv_Ok in Hbuild as (id & Hid & Hbuild).
    apply bind_inv_Ok in Hbuild as (k' & Hk' & Hbuild).
    eapply IH; [| exact Hbuild].
    rewrite lookup_insert_ne; [exact Hk |].
    intros ->. apply Hfree. exists e, id. split_and!; try done.
    unfold dict_item in Hid. by destruct (dict_lookup "id" e); simplify_eq.
Qed.

(** The last node element filed under [k] decides the entry of [k]. *)
Lemma build_nodes_last (before after : list json) (node : dict) (id : json)
    (k : hkey) (nodes : node_index) :
  is_node node = true ->
  dict_lookup "id" node = Some id ->
  hash_key id = Ok k ->
  Forall (fun element => ~ binds k element) after ->
  build_nodes (before ++ JObj node :: after) ∅ = Ok nodes ->
  nodes !! k = Some (node_entry node).
Proof.
  intros Hnode Hid Hk Hfree Hbuild.
  rewrite build_nodes_app in Hbuild.
  apply bind_inv_Ok in Hbuild as (mid & _ & Hbuild).
  simpl in Hbuild. unfold is_node in Hnode. rewrite Hnode in Hbuild.
  unfold dict_item in Hbuild. rewrite Hid in Hbuild. simpl in Hbuild.
  rewrite Hk in Hbuild. simpl in Hbuild.
  eapply build_nodes_keeps; [exact Hfree | | exact Hbuild].
  apply lookup_insert_eq.
Qed.

(** A value that is not a list or a dict equals itself. *)
Lemma py_eq_scalar_refl (v : json) : hashable v = true -> py_eq v v = true.
Proof.
  destruct v as [| [] | z | q | s | |]; simpl; try done; intros _.
  - by apply Qeq_bool_iff.
  - by apply Qeq_bool_iff.
  - apply String.eqb_refl.
Qed.

Lemma py_eq_pair_refl (a b : json) :
  hashable a = true -> hashable b = true ->
  py_eq (JArr [a; b]) (JArr [a; b]) = true.
Proof.
  intros Ha Hb.
  change (py_eq a a && (py_eq b b && true) = true).
  by rewrite !py_eq_scalar_refl.
Qed.

Lemma omap_elem_of_key (nodes : node_index) (ids : list json)
    (keys : list hkey) (id : json) (k : hkey) (entry : dict) :
  Forall2 (fun id k => hash_key id = Ok k) ids keys ->
  id ∈ ids -> hash_key id = Ok k -> nodes !! k = Some entry ->
  entry_pair entry ∈ omap (fun k => entry_pair <$> nodes !! k) keys.
Proof.
  intros Hkeys Hin Hk Hentry.
  apply list_elem_of_omap. exists k. split; [| by rewrite Hentry].
  induction Hkeys as [| id' k' ids keys Hk' _ IH]; [by apply elem_of_nil in Hin |].
  apply elem_of_cons in Hin as [-> | Hin].
  - rewrite Hk in Hk'. injection Hk' as <-. apply elem_of_cons. by left.
  - apply elem_of_cons. right. apply IH, Hin.
Qed.

(** C10: a node element still gets its entry in the node lookup when its
    latitude or longitude is missing, with None in the place of what is
    missing; a path element that refers to it gets the pair of that entry
    ([[None, None]] when both are missing) in its coordinate sequence, the
    reference is not skipped; such pairs count for the gate of 2
    coordinates and are compared as first and last pair in the closure
    test. *)
Theorem null_coordinates_are_indexed (before after : list json) (node : dict)
    (id : json) (k : hkey) (nodes : node_index) :
  is_node node = true ->
  dict_lookup "id" node = Some id ->
  hash_key id = Ok k ->
  Forall (fun element => ~ binds k element) after ->
  build_nodes (before ++ JObj node :: after) ∅ = Ok nodes ->
  let lat := dict_get "lat" JNull node in
  let lon := dict_get "lon" JNull node in
  nodes !! k = Some [("lat", lat); ("lon", lon)] /\
  (dict_lookup "lat" node = None -> lat = JNull) /\
  (dict_lookup "lon" node = None -> lon = JNull) /\
  (forall way ids coordinates,
     dict_lookup "geometry" way = None ->
     dict_lookup "nodes" way = Some (JArr ids) ->
     way_coordinates way nodes = Ok coordinates ->
     id ∈ ids -> JArr [lon; lat] ∈ coordinates) /\
  (forall way,
     dict_lookup "geometry" way = None ->
     dict_lookup "nodes" way = Some (JArr [id; id]) ->
     convert_way_to_feature way nodes =
       Ok (Some (feature ("way/" +:+ py_str (dict_get "id" JNull way))
                   "LineString" (JArr [JArr [lon; lat]; JArr [lon; lat]])
                   (dict_get "tags" (JObj []) way)))) /\
  (forall way middle coordinates,
     dict_lookup "geometry" way = None ->
     dict_lookup "nodes" way = Some (JArr (id :: middle ++ [id])) ->
     way_coordinates way nodes = Ok coordinates ->
     hashable lat = true -> hashable lon = true ->
     4 <= length coordinates ->
     is_closed coordinates = true).
Proof.
  intros Hnode Hid Hk Hfree Hbuild lat lon.
  pose proof (build_nodes_last _ _ _ _ _ _ Hnode Hid Hk Hfree Hbuild) as Hentry.
  pose proof (build_nodes_from_empty_indexed _ _ Hbuild) as Hix.
  fold lat lon in Hentry. unfold node_entry in Hentry. fold lat lon in Hentry.
  split; [exact Hentry |].
  split; [by unfold lat, dict_get; intros -> |].
  split; [by unfold lon, dict_get; intros -> |].
  split; [| split].
  - intros way ids coordinates Hg Hn Hcoords Hin.
    rewrite (way_coordinates_by_reference _ _ _ Hg Hn) in Hcoords.
    destruct (node_coordinates_hashed _ _ _ _ Hcoords) as (keys & Hkeys).
    rewrite (node_coordinates_spec _ _ _ Hix Hkeys) in Hcoords.
    injection Hcoords as <-. simpl.
    apply (omap_elem_of_key nodes ids keys id k _ Hkeys Hin Hk Hentry).
  - intros way Hg Hn.
    assert (way_coordinates way nodes =
              Ok [JArr [lon; lat]; JArr [lon; lat]]) as Hcoords.
    { rewrite (way_coordinates_by_reference _ _ _ Hg Hn).
      rewrite (node_coordinates_spec nodes [id; id] [k; k] Hix)
        by (repeat constructor; exact Hk).
      simpl. by rewrite Hentry. }
    rewrite (convert_way_to_feature_resolved _ _ _ Hcoords) by (simpl; lia).
    reflexivity.
  - intros way middle coordinates Hg Hn Hcoords Hlat Hlon Hlen.
    rewrite (way_coordinates_by_reference _ _ _ Hg Hn) in Hcoords.
    destruct (node_coordinates_hashed _ _ _ _ Hcoords) as (keys & Hkeys).
    rewrite (node_coordinates_spec _ _ _ Hix Hkeys) in Hcoords.
    injection Hcoords as <-. simpl in *.
    apply Forall2_cons_inv_l in Hkeys as (k0 & keys' & Hk0 & Hkeys & ->).
    apply Forall2_app_inv_l in Hkeys as (kmid & klast & _ & Hlast & ->).
    apply Forall2_cons_inv_l in Hlast as (k1 & knil & Hk1 & Hnil & ->).
    apply Forall2_nil_inv_l in Hnil as ->.
    rewrite Hk in Hk0, Hk1. injection Hk0 as <-. injection Hk1 as <-.
    simpl. rewrite Hentry. simpl.
    rewrite omap_app. simpl. rewrite Hentry. simpl.
    unfold is_closed. apply andb_true_iff. split.
    + apply Nat.leb_le. revert Hlen. simpl. rewrite Hentry. simpl.
      by rewrite omap_app; simpl; rewrite Hentry.
    + rewrite app_comm_cons, List.last_last. simpl.
      by apply py_eq_pair_refl.
Qed.

(** ** More about the orchestrator *)

Lemma bind_inv_Raise {A B : Type} (c : result A) (k : A -> result B) (e : exn) :
  (c ≫= k) = Raise e -> c = Raise e \/ exists a, c = Ok a /\ k a = Raise e.
Proof. destruct c as [a | e']; simpl; [eauto | intros [= ->]; by left]. Qed.

(** A second loop that ended normally made, element by element, the
    optional features it appended. *)
Lemma process_elements_inv (nodes : node_index) (elements : list json) :
  forall features out,
    process_elements elements nodes features = Ok out ->
    exists made,
      Forall2 (fun element m => convert_element element nodes = Ok m)
        elements made /\
      out = features ++ omap id made.
Proof.
  induction elements as [| element rest IH]; intros features out Hout.
  - simpl in Hout. injection Hout as <-. exists []. split; [constructor |].
    by rewrite app_nil_r.
  - simpl in Hout. apply bind_inv_Ok in Hout as (m & Hm & Hout).
    destruct m as [f |].
    + destruct (IH _ _ Hout) as (made & Hmade & ->).
      exists (Some f :: made). split; [by constructor |].
      simpl. by rewrite <- app_assoc.
    + destruct (IH _ _ Hout) as (made & Hmade & ->).
      exists (None :: made). split; [by constructor | done].
Qed.

(** The second loop over a concatenation is the loop over the first part
    followed by the loop over the second. *)
Lemma process_elements_app (nodes : node_index) (before after : list json) :
  forall features,
    process_elements (before ++ after) nodes features =
      (mid ← process_elements before nodes features;
       process_elements after nodes mid).
Proof.
  induction before as [| element before IH]; intros features; [reflexivity |].
  simpl. destruct (convert_element element nodes) as [[f |] | e]; simpl;
    [apply IH | apply IH | reflexivity].
Qed.

(** What a normal end of [convert_overpass_to_geojson] on a dict means. *)
Lemma convert_overpass_to_geojson_inv (payload : dict) (elements : list json)
    (out : json) :
  py_iter (dict_get "elements" (JArr []) payload) = Ok elements ->
  convert_overpass_to_geojson (JObj payload) = Ok out ->
  exists nodes made,
    build_nodes elements ∅ = Ok nodes /\
    Forall2 (fun element m => convert_element element nodes = Ok m)
      elements made /\
    out = feature_collection (omap id made).
Proof.
  intros Hiter Hout. unfold convert_overpass_to_geojson in Hout.
  simpl in Hout. rewrite Hiter, bind_Ok in Hout.
  apply bind_inv_Ok in Hout as (nodes & Hnodes & Hout).
  apply bind_inv_Ok in Hout as (features & Hfeatures & Hout).
  injection Hout as <-.
  apply process_elements_inv in Hfeatures as (made & Hmade & ->).
  by exists nodes, made.
Qed.

Lemma omap_id_length (made : list (option json)) :
  length (omap id made) <= length made.
Proof.
  induction made as [| m made IH]; [reflexivity |].
  change (m :: made) with ([m] ++ made). rewrite omap_app, !length_app.
  destruct m; simpl in *; lia.
Qed.

(** X1: a conversion that ends normally gives at most one feature per
    element of the payload. *)
Theorem at_most_one_feature_per_element (payload : dict)
    (elements features : list json) :
  py_iter (dict_get "elements" (JArr []) payload) = Ok elements ->
  convert_overpass_to_geojson (JObj payload) =
    Ok (feature_collection features) ->
  length features <= length elements.
Proof.
  intros Hiter Hout.
  destruct (convert_overpass_to_geojson_inv _ _ _ Hiter Hout)
    as (nodes & made & _ & Hmade & Heq).
  injection Heq as ->.
  rewrite (Forall2_length _ _ _ Hmade). apply omap_id_length.
Qed.

(** X2: every feature of the output comes from an element of the payload
    that is a node, through the point converter, or a way that is not
    also typed node, through the path converter with the node lookup of
    the whole payload; elements of any other kind never give a feature. *)
Theorem features_come_from_nodes_and_ways (payload : dict)
    (elements features : list json) :
  py_iter (dict_get "elements" (JArr []) payload) = Ok elements ->
  convert_overpass_to_geojson (JObj payload) =
    Ok (feature_collection features) ->
  exists nodes,
    build_nodes elements ∅ = Ok nodes /\
    forall f, f ∈ features ->
      exists e, JObj e ∈ elements /\
        ((is_node e = true /\ convert_node_to_feature e = Some f) \/
         (is_node e = false /\ is_way e = true /\
          convert_way_to_feature e nodes = Ok (Some f))).
Proof.
  intros Hiter Hout.
  destruct (convert_overpass_to_geojson_inv _ _ _ Hiter Hout)
    as (nodes & made & Hnodes & Hmade & Heq).
  injection Heq as ->. exists nodes. split; [exact Hnodes |].
  intros f Hf. apply list_elem_of_omap in Hf as (m & Hm & Hid).
  simpl in Hid. subst m.
  apply list_elem_of_lookup in Hm as (i & Hi).
  destruct (Forall2_lookup_r _ _ _ _ _ Hmade Hi) as (element & Hel & Hconv).
  unfold convert_element in Hconv.
  apply bind_inv_Ok in Hconv as (e & He & Hconv).
  destruct element as [| | | | | | e']; try discriminate.
  injection He as ->. exists e.
  split; [by eapply list_elem_of_lookup_2 |].
  unfold is_node, is_way.
  destruct (py_eq (dict_get "type" JNull e) (JStr "node")).
  - left. split; [done |]. by injection Hconv.
  - destruct (py_eq (dict_get "type" JNull e) (JStr "way")); [| discriminate].
    right. done.
Qed.

(** X3: the second loop composes: with one node lookup, the features of
    a concatenation of element lists are the features of the first list
    followed by those of the second. *)
Theorem features_of_concatenation (nodes : node_index)
    (before after fs_before fs_after : list json) :
  process_elements before nodes [] = Ok fs_before ->
  process_elements after nodes [] = Ok fs_after ->
  process_elements (before ++ after) nodes [] = Ok (fs_before ++ fs_after).
Proof.
  intros Hbefore Hafter.
  rewrite process_elements_app, Hbefore, bind_Ok.
  apply process_elements_inv in Hafter as (made & Hmade & ->).
  by rewrite (process_elements_spec nodes after made Hmade).
Qed.

(** The conversion of a payload whose [elements] is a list. *)
Lemma convert_overpass_to_geojson_elements (payload : dict)
    (elements : list json) :
  dict_lookup "elements" payload = Some (JArr elements) ->
  convert_overpass_to_geojson (JObj payload) =
    (nodes ← build_nodes elements ∅;
     features ← process_elements elements nodes [];
     Ok (feature_collection features)).
Proof.
  intros Hels. unfold convert_overpass_to_geojson.
  change (as_dict (JObj payload)) with (Ok payload).
  rewrite bind_Ok. unfold dict_get. by rewrite Hels.
Qed.

(** X4: an element of a kind that is neither node nor way has no effect:
    the payload without it converts to the same result, feature
    collection or exception. *)
Theorem unsupported_element_has_no_effect (payload payload' e : dict)
    (before after : list json) :
  is_node e = false -> is_way e = false ->
  dict_lookup "elements" payload = Some (JArr (before ++ JObj e :: after)) ->
  dict_lookup "elements" payload' = Some (JArr (before ++ after)) ->
  convert_overpass_to_geojson (JObj payload) =
    convert_overpass_to_geojson (JObj payload').
Proof.
  intros Hnode Hway Hwith Hwithout.
  rewrite (convert_overpass_to_geojson_elements _ _ Hwith).
  rewrite (convert_overpass_to_geojson_elements _ _ Hwithout).
  rewrite !build_nodes_app.
  destruct (build_nodes before ∅) as [mid | err]; [| reflexivity].
  rewrite !bind_Ok, (build_nodes_other_kind _ _ _ Hnode).
  destruct (build_nodes after mid) as [nodes | err]; [| reflexivity].
  rewrite !bind_Ok, !process_elements_app.
  destruct (process_elements before nodes []) as [fs | err]; [| reflexivity].
  rewrite !bind_Ok.
  change (process_elements (JObj e :: after) nodes fs)
    with (made ← convert_element (JObj e) nodes;
          match made with
          | Some f => process_elements after nodes (fs ++ [f])
          | None => process_elements after nodes fs
          end).
  by rewrite (convert_element_other_kind _ _ Hnode Hway).
Qed.

(** ** Which exceptions the conversion raises *)

Lemma as_dict_raises (v : json) (e : exn) :
  as_dict v = Raise e -> is_RuntimeError e = false.
Proof. destruct v; simpl; intros H; by simplify_eq. Qed.

Lemma dict_item_raises (key : string) (d : dict) (e : exn) :
  dict_item key d = Raise e -> is_RuntimeError e = false.
Proof.
  unfold dict_item. destruct (dict_lookup key d); intros H; by simplify_eq.
Qed.

Lemma subscript_raises (v : json) (key : string) (e : exn) :
  subscript v key = Raise e -> is_RuntimeError e = false.
Proof.
  destruct v; simpl; try (intros H; by simplify_eq). apply dict_item_raises.
Qed.

Lemma py_iter_raises (v : json) (e : exn) :
  py_iter v = Raise e -> is_RuntimeError e = false.
Proof. destruct v; simpl; intros H; by simplify_eq. Qed.

Lemma hash_key_raises (v : json) (e : exn) :
  hash_key v = Raise e -> is_RuntimeError e = false.
Proof. destruct v as [| [] | | | | |]; simpl; intros H; by simplify_eq. Qed.

Lemma geometry_coordinates_raises (geometry : list json) (e : exn) :
  geometry_coordinates geometry = Raise e -> is_RuntimeError e = false.
Proof.
  induction geometry as [| n rest IH]; simpl; [discriminate |]. intros H.
  apply bind_inv_Raise in H as [H | (lon & _ & H)];
    [by eapply subscript_raises |].
  apply bind_inv_Raise in H as [H | (lat & _ & H)];
    [by eapply subscript_raises |].
  apply bind_inv_Raise in H as [H | (cs & _ & H)]; [by apply IH | discriminate].
Qed.

Lemma node_coordinates_raises (nodes : node_index) (ids : list json) (e : exn) :
  forall coordinates,
    node_coordinates ids nodes coordinates = Raise e ->
    is_RuntimeError e = false.
Proof.
  induction ids as [| id rest IH]; simpl; intros coordinates H; [discriminate |].
  apply bind_inv_Raise in H as [H | (k & _ & H)];
    [by eapply hash_key_raises |].
  destruct (nodes !! k) as [entry |]; [| by eapply IH].
  apply bind_inv_Raise in H as [H | (lon & _ & H)];
    [by eapply dict_item_raises |].
  apply bind_inv_Raise in H as [H | (lat & _ & H)];
    [by eapply dict_item_raises | by eapply IH].
Qed.

Lemma way_coordinates_raises (way : dict) (nodes : node_index) (e : exn) :
  way_coordinates way nodes = Raise e -> is_RuntimeError e = false.
Proof.
  unfold way_coordinates. intros H.
  destruct (dict_lookup "geometry" way) as [geometry |].
  - apply bind_inv_Raise in H as [H | (items & _ & H)];
      [by eapply py_iter_raises | by eapply geometry_coordinates_raises].
  - destruct (dict_lookup "nodes" way) as [node_ids |]; [| discriminate].
    apply bind_inv_Raise in H as [H | (items & _ & H)];
      [by eapply py_iter_raises | by eapply node_coordinates_raises].
Qed.

Lemma convert_way_to_feature_raises (way : dict) (nodes : node_index) (e : exn) :
  convert_way_to_feature way nodes = Raise e -> is_RuntimeError e = false.
Proof.
  unfold convert_way_to_feature. intros H.
  apply bind_inv_Raise in H as [H | (cs & _ & H)];
    [by eapply way_coordinates_raises |].
  destruct (length cs <? 2)%nat; [discriminate |].
  apply bind_inv_Raise in H as [H | (area & _ & H)].
  - unfold is_area in H. destruct (is_closed cs); [| discriminate].
    apply bind_inv_Raise in H as [H | (t & _ & H)];
      [by eapply as_dict_raises | discriminate].
  - by destruct area.
Qed.

Lemma build_nodes_raises (elements : list json) (e : exn) :
  forall start, build_nodes elements start = Raise e ->
                is_RuntimeError e = false.
Proof.
  induction elements as [| element rest IH]; simpl; intros start H;
    [discriminate |].
  apply bind_inv_Raise in H as [H | (d & _ & H)];
    [by eapply as_dict_raises |].
  destruct (py_eq _ _); [| by eapply IH].
  apply bind_inv_Raise in H as [H | (id & _ & H)];
    [by eapply dict_item_raises |].
  apply bind_inv_Raise in H as [H | (k & _ & H)];
    [by eapply hash_key_raises | by eapply IH].
Qed.

Lemma convert_element_raises (element : json) (nodes : node_index) (e : exn) :
  convert_element element nodes = Raise e -> is_RuntimeError e = false.
Proof.
  unfold convert_element. intros H.
  apply bind_inv_Raise in H as [H | (d & _ & H)];
    [by eapply as_dict_raises |].
  destruct (py_eq _ _); [discriminate |].
  destruct (py_eq _ _); [by eapply convert_way_to_feature_raises | discriminate].
Qed.

Lemma process_elements_raises (nodes : node_index) (elements : list json)
    (e : exn) :
  forall features, process_elements elements nodes features = Raise e ->
                   is_RuntimeError e = false.
Proof.
  induction elements as [| element rest IH]; simpl; intros features H;
    [discriminate |].
  apply bind_inv_Raise in H as [H | (m & _ & H)];
    [by eapply convert_element_raises |].
  destruct m; by eapply IH.
Qed.

Lemma convert_overpass_to_geojson_raises (osm_data : json) (e : exn) :
  convert_overpass_to_geojson osm_data = Raise e -> is_RuntimeError e = false.
Proof.
  unfold convert_overpass_to_geojson. intros H.
  apply bind_inv_Raise in H as [H | (d & _ & H)];
    [by eapply as_dict_raises |].
  apply bind_inv_Raise in H as [H | (elements & _ & H)];
    [by eapply py_iter_raises |].
  apply bind_inv_Raise in H as [H | (nodes & _ & H)];
    [by eapply build_nodes_raises |].
  apply bind_inv_Raise in H as [H | (features & _ & H)];
    [by eapply process_elements_raises | discriminate].
Qed.

(** X5: [fetch_osm_geojson] raises nothing but RuntimeError, whatever the
    request comes to and whatever the body holds. *)
Theorem fetch_raises_only_RuntimeError (r : response) (e : exn) :
  fetch_osm_geojson r = Raise e -> is_RuntimeError e = true.
Proof.
  destruct r as [text | text | osm_data]; simpl.
  - by intros [= <-].
  - by intros [= <-].
  - destruct (py_contains "elements" osm_data) as [[] | err]; simpl.
    + destruct (convert_overpass_to_geojson osm_data) as [g | err];
        [discriminate |].
      destruct (is_RuntimeError err) eqn:Herr; by intros [= <-].
    + by intros [= <-].
    + destruct (is_RuntimeError err) eqn:Herr; by intros [= <-].
Qed.

(** X6: on a body that is a mapping with the key [elements],
    [fetch_osm_geojson] returns what the converter returns, and an
    exception of the converter, which is never a RuntimeError, comes out
    as the RuntimeError "Unexpected error fetching OSM data" about it. *)
Theorem fetch_returns_the_conversion (payload : dict) :
  dict_mem "elements" payload = true ->
  fetch_osm_geojson (Body (JObj payload)) =
    match convert_overpass_to_geojson (JObj payload) with
    | Ok geojson => Ok geojson
    | Raise e => Raise (RuntimeErrorOf "Unexpected error fetching OSM data: " e)
    end.
Proof.
  intros Hmem. unfold fetch_osm_geojson, py_contains.
  rewrite Hmem, bind_Ok.
  destruct (convert_overpass_to_geojson (JObj payload)) as [g | e] eqn:Hconv;
    [reflexivity |].
  by rewrite (convert_overpass_to_geojson_raises _ _ Hconv).
Qed.

(** ** Well-formed payloads convert *)

Lemma hashable_hash_key (v : json) :
  hashable v = true -> exists k, hash_key v = Ok k.
Proof. destruct v as [| [] | | | | |]; simpl; intros H; by eauto. Qed.

Lemma build_nodes_well_formed (elements : list json) :
  Forall element_well_formed elements ->
  forall start, exists nodes, build_nodes elements start = Ok nodes.
Proof.
  induction 1 as [| element rest (e & -> & Hnode & _) _ IH]; intros start.
  - by exists start.
  - simpl. unfold is_node in Hnode.
    destruct (py_eq (dict_get "type" JNull e) (JStr "node")); [| apply IH].
    destruct (Hnode eq_refl) as (id & Hid & Hhash).
    destruct (hashable_hash_key _ Hhash) as (k & Hk).
    unfold dict_item. rewrite Hid. simpl. rewrite Hk. simpl. apply IH.
Qed.

Lemma geometry_well_formed (entries : list json) :
  Forall (fun n => is_Some (embedded_pair n)) entries ->
  exists coordinates,
    Forall2 (fun n c => embedded_pair n = Some c) entries coordinates.
Proof.
  induction 1 as [| n entries [c Hc] _ (cs & IH)].
  - exists []. constructor.
  - exists (c :: cs). by constructor.
Qed.

Lemma references_well_formed (ids : list json) :
  Forall (fun id => hashable id = true) ids ->
  exists keys, Forall2 (fun id k => hash_key id = Ok k) ids keys.
Proof.
  induction 1 as [| id ids Hid _ (keys & IH)].
  - exists []. constructor.
  - destruct (hashable_hash_key _ Hid) as (k & Hk).
    exists (k :: keys). by constructor.
Qed.

Lemma convert_way_well_formed (way : dict) (nodes : node_index) :
  indexed nodes -> way_well_formed way ->
  exists made, convert_way_to_feature way nodes = Ok made.
Proof.
  intros Hix [Hshape (t & Htags)].
  assert (exists coordinates, way_coordinates way nodes = Ok coordinates)
    as (coordinates & Hcoords).
  { unfold way_coordinates.
    destruct (dict_lookup "geometry" way) as [geometry |].
    - destruct Hshape as (entries & -> & Hentries).
      destruct (geometry_well_formed _ Hentries) as (cs & Hcs).
      exists cs. simpl. by apply geometry_coordinates_spec.
    - destruct (dict_lookup "nodes" way) as [node_ids |]; [| by eexists].
      destruct Hshape as (ids & -> & Hids).
      destruct (references_well_formed _ Hids) as (keys & Hkeys).
      eexists. simpl. by apply node_coordinates_spec. }
  destruct (Nat.lt_ge_cases (length coordinates) 2) as [Hlt | Hge].
  - exists None. unfold convert_way_to_feature.
    rewrite Hcoords, bind_Ok.
    by destruct (Nat.ltb_spec (length coordinates) 2); [| lia].
  - rewrite (convert_way_to_feature_resolved _ _ _ Hcoords Hge), Htags.
    destruct (is_closed coordinates); simpl; by eexists.
Qed.

Lemma convert_elements_well_formed (nodes : node_index) (elements : list json) :
  indexed nodes ->
  Forall element_well_formed elements ->
  exists made,
    Forall2 (fun element m => convert_element element nodes = Ok m)
      elements made.
Proof.
  intros Hix.
  induction 1 as [| element rest (e & -> & _ & Hway) _ (made & IH)].
  - exists []. constructor.
  - assert (exists m, convert_element (JObj e) nodes = Ok m) as (m & Hm).
    { unfold convert_element, is_node, is_way in *. simpl.
      destruct (py_eq (dict_get "type" JNull e) (JStr "node")); [by eexists |].
      destruct (py_eq (dict_get "type" JNull e) (JStr "way")); [| by eexists].
      by apply convert_way_well_formed, Hway. }
    exists (m :: made). by constructor.
Qed.

(** X7: a payload whose elements are all well formed (dicts; nodes with a
    hashable id; ways whose embedded geometry entries have [lat] and
    [lon], whose node references are hashable and whose tags are a dict)
    converts to a feature collection: no exception is raised. *)
Theorem well_formed_payload_converts (payload : dict) (elements : list json) :
  py_iter (dict_get "elements" (JArr []) payload) = Ok elements ->
  Forall element_well_formed elements ->
  exists features,
    convert_overpass_to_geojson (JObj payload) =
      Ok (feature_collection features).
Proof.
  intros Hiter Hwf.
  destruct (build_nodes_well_formed _ Hwf ∅) as (nodes & Hnodes).
  pose proof (build_nodes_from_empty_indexed _ _ Hnodes) as Hix.
  destruct (convert_elements_well_formed _ _ Hix Hwf) as (made & Hmade).
  exists (omap id made). unfold convert_overpass_to_geojson.
  change (as_dict (JObj payload)) with (Ok payload).
  rewrite bind_Ok, Hiter, bind_Ok, Hnodes, bind_Ok.
  by rewrite (process_elements_spec nodes elements made Hmade []).
Qed.

(** ** The shape of what the path converter makes *)

(** X8: a feature made of a way is a LineString over at least 2 resolved
    coordinates, or a Polygon whose single ring is a closed coordinate
    sequence (at least 4 pairs, equal ends) of a way whose tags are a dict
    with an area tag. *)
Theorem way_feature_shape (way : dict) (nodes : node_index) (f : json) :
  convert_way_to_feature way nodes = Ok (Some f) ->
  let id := "way/" +:+ py_str (dict_get "id" JNull way) in
  let tags := dict_get "tags" (JObj []) way in
  exists coordinates,
    way_coordinates way nodes = Ok coordinates /\
    2 <= length coordinates /\
    (f = feature id "LineString" (JArr coordinates) tags \/
     (f = feature id "Polygon" (JArr [JArr coordinates]) tags /\
      closed_path coordinates /\
      exists t, tags = JObj t /\ area_tagged t)).
Proof.
  intros Hf id tags.
  destruct (way_coordinates way nodes) as [coordinates | e] eqn:Hcoords.
  2: { unfold convert_way_to_feature in Hf. by rewrite Hcoords in Hf. }
  exists coordinates. split; [reflexivity |].
  destruct (Nat.lt_ge_cases (length coordinates) 2) as [Hlt | Hge].
  { unfold convert_way_to_feature in Hf. rewrite Hcoords, bind_Ok in Hf.
    destruct (Nat.ltb_spec (length coordinates) 2); [discriminate | lia]. }
  split; [exact Hge |].
  rewrite (convert_way_to_feature_resolved _ _ _ Hcoords Hge) in Hf.
  fold id tags in Hf.
  apply bind_inv_Ok in Hf as (area & Harea & Hf).
  injection Hf as <-. unfold is_area in Harea.
  destruct (is_closed coordinates) eqn:Hclosed.
  - apply bind_inv_Ok in Harea as (t & Ht & Harea).
    injection Harea as <-.
    destruct tags as [| | | | | | t'] eqn:Htags; try discriminate.
    injection Ht as ->.
    destruct (area_tags t) eqn:Htagged; [right | by left].
    split; [reflexivity |]. split; [by apply is_closed_spec |].
    exists t. split; [reflexivity | by apply area_tags_spec].
  - injection Harea as <-. by left.
Qed.

Lemma geometry_coordinates_pairs (geometry : list json) :
  forall coordinates,
    geometry_coordinates geometry = Ok coordinates ->
    Forall (fun c => exists lon lat, c = JArr [lon; lat]) coordinates.
Proof.
  induction geometry as [| n rest IH]; simpl; intros coordinates H.
  - injection H as <-. constructor.
  - apply bind_inv_Ok in H as (lon & _ & H).
    apply bind_inv_Ok in H as (lat & _ & H).
    apply bind_inv_Ok in H as (cs & Hcs & H).
    injection H as <-. constructor; [by eexists _, _ | by apply IH].
Qed.

(** X9: with the node lookup of a payload, every resolved coordinate of a
    way is a two-item list [[lon, lat]], and there is at most one per
    embedded entry or node reference iterated. *)
Theorem coordinates_are_pairs (elements : list json) (nodes : node_index)
    (way : dict) (coordinates : list json) :
  build_nodes elements ∅ = Ok nodes ->
  way_coordinates way nodes = Ok coordinates ->
  Forall (fun c => exists lon lat, c = JArr [lon; lat]) coordinates /\
  (forall source items,
     (dict_lookup "geometry" way = Some source \/
      dict_lookup "geometry" way = None /\
      dict_lookup "nodes" way = Some source) ->
     py_iter source = Ok items ->
     length coordinates <= length items).
Proof.
  intros Hnodes Hcoords.
  pose proof (build_nodes_from_empty_indexed _ _ Hnodes) as Hix.
  unfold way_coordinates in Hcoords.
  destruct (dict_lookup "geometry" way) as [geometry |] eqn:Hg.
  - apply bind_inv_Ok in Hcoords as (items & Hitems & Hcoords). split.
    + by eapply geometry_coordinates_pairs.
    + intros source items' [[= <-] | [? _]] Hiter; [| discriminate].
      rewrite Hitems in Hiter. injection Hiter as <-.
      clear -Hcoords. revert coordinates Hcoords.
      induction items as [| n rest IH]; simpl; intros coordinates H.
      * by injection H as <-.
      * apply bind_inv_Ok in H as (lon & _ & H).
        apply bind_inv_Ok in H as (lat & _ & H).
        apply bind_inv_Ok in H as (cs & Hcs & H).
        injection H as <-. simpl. apply IH in Hcs. lia.
  - destruct (dict_lookup "nodes" way) as [node_ids |] eqn:Hn.
    + apply bind_inv_Ok in Hcoords as (items & Hitems & Hcoords).
      destruct (node_coordinates_hashed _ _ _ _ Hcoords) as (keys & Hkeys).
      rewrite (node_coordinates_spec _ _ _ Hix Hkeys) in Hcoords.
      injection Hcoords as <-. simpl. split.
      * apply Forall_forall. intros c Hc.
        apply list_elem_of_omap in Hc as (k & _ & Hc).
        destruct (nodes !! k) as [entry |]; [| discriminate].
        injection Hc as <-. by eexists _, _.
      * intros source items' [[= ] | [_ [= <-]]] Hiter.
        rewrite Hitems in Hiter. injection Hiter as <-.
        rewrite (Forall2_length _ _ _ Hkeys).
        clear. induction keys as [| k keys IH]; [reflexivity |].
        change (k :: keys) with ([k] ++ keys). rewrite omap_app, !length_app.
        simpl. destruct (nodes !! k); simpl; lia.
    + injection Hcoords as <-. split; [constructor |].
      intros source items' [[= ] | [_ [= ]]].
Qed.

(** ** What the node lookup holds *)

(** X10: every entry of the node lookup of a payload comes from a node
    element of that payload: it is filed under the key of that element's
    id and holds that element's [lat] and [lon] (None when missing).  No
    way, relation or other element ever adds an entry. *)
Theorem node_lookup_entries_come_from_nodes (elements : list json)
    (nodes : node_index) (k : hkey) (entry : dict) :
  build_nodes elements ∅ = Ok nodes ->
  nodes !! k = Some entry ->
  exists node,
    JObj node ∈ elements /\ binds k (JObj node) /\ entry = node_entry node.
Proof.
  intros Hbuild Hentry.
  assert (forall els start out,
            build_nodes els start = Ok out -> out !! k = Some entry ->
            start !! k = Some entry \/
            exists node, JObj node ∈ els /\ binds k (JObj node) /\
                         entry = node_entry node) as Hgen.
  { clear. induction els as [| element rest IH]; intros start out Hb Hk.
    - simpl in Hb. injection Hb as <-. by left.
    - simpl in Hb. apply bind_inv_Ok in Hb as (e & He & Hb).
      destruct element as [| | | | | | e']; try discriminate.
      injection He as ->.
      destruct (py_eq (dict_get "type" JNull e) (JStr "node")) eqn:Hnode.
      + apply bind_inv_Ok in Hb as (id & Hid & Hb).
        apply bind_inv_Ok in Hb as (k' & Hk' & Hb).
        destruct (IH _ _ Hb Hk) as [Hstart | (node & Hin & Hbinds & ->)].
        * destruct (decide (k' = k)) as [-> | Hne].
          -- rewrite lookup_insert_eq in Hstart. injection Hstart as <-.
             right. exists e. split; [apply elem_of_cons; by left |].
             split; [| reflexivity]. exists e, id. split_and!; try done.
             unfold dict_item in Hid.
             by destruct (dict_lookup "id" e); simplify_eq.
          -- rewrite lookup_insert_ne in Hstart by done. by left.
        * right. exists node. split; [apply elem_of_cons; by right | done].
      + destruct (IH _ _ Hb Hk) as [Hstart | (node & Hin & Hbinds & ->)];
          [by left |].
        right. exists node. split; [apply elem_of_cons; by right | done]. }
  destruct (Hgen _ _ _ Hbuild Hentry) as [Hempty | H]; [| exact H].
  by rewrite lookup_empty in Hempty.
Qed.

(** ** The settings *)

Lemma in_strs_spec (v : json) (strs : list string) :
  in_strs v strs = true <-> exists s, s ∈ strs /\ v = JStr s.
Proof.
  unfold in_strs. induction strs as [| s strs IH]; simpl.
  - split; [discriminate | intros (s & Hs & _); by apply elem_of_nil in Hs].
  - rewrite orb_true_iff, py_eq_str, IH. split.
    + intros [-> | (t & Ht & ->)].
      * exists s. split; [apply elem_of_cons; by left | done].
      * exists t. split; [apply elem_of_cons; by right | done].
    + intros (t & Ht & ->). apply elem_of_cons in Ht as [-> | Ht];
        [by left | right; by exists t].
Qed.

(** X11: [load_send_shortcut] returns the str [enter] or the str
    [cmd_enter], whatever the settings hold under its key. *)
Theorem load_send_shortcut_is_valid (settings : settings_store) :
  load_send_shortcut settings = JStr "enter" \/
  load_send_shortcut settings = JStr "cmd_enter".
Proof.
  unfold load_send_shortcut.
  destruct (in_strs _ _) eqn:Hin; [| by left].
  apply in_strs_spec in Hin as (s & Hs & ->).
  apply elem_of_cons in Hs as [-> | Hs]; [by left |].
  apply elem_of_cons in Hs as [-> | Hs]; [by right |].
  by apply elem_of_nil in Hs.
Qed.

(** X12: a shortcut saved is the shortcut loaded when it is [enter] or
    [cmd_enter]; after any other value is saved, [enter] is loaded. *)
Theorem send_shortcut_round_trip (shortcut : string)
    (settings : settings_store) :
  load_send_shortcut (save_send_shortcut shortcut settings) =
    if decide (shortcut = "enter" \/ shortcut = "cmd_enter")
    then JStr shortcut else JStr "enter".
Proof.
  unfold load_send_shortcut, save_send_shortcut, settings_value.
  rewrite lookup_insert_eq.
  destruct (in_strs (JStr shortcut) ["enter"; "cmd_enter"]) eqn:Hin.
  - apply in_strs_spec in Hin as (s & Hs & [= ->]).
    rewrite decide_True; [done |].
    apply elem_of_cons in Hs as [-> | Hs]; [by left |].
    apply elem_of_cons in Hs as [-> | Hs]; [by right |].
    by apply elem_of_nil in Hs.
  - rewrite decide_False; [done |]. intros Hvalid.
    assert (in_strs (JStr shortcut) ["enter"; "cmd_enter"] = true) as Hyes.
    { apply in_strs_spec. exists shortcut. split; [| done].
      destruct Hvalid as [-> | ->]; set_solver. }
    congruence.
Qed.

(** X13: a non-empty API key saved is the key loaded, and after the empty
    key is saved None is loaded; [load_api_key] never returns an empty
    str, whatever the settings hold. *)
Theorem api_key_round_trip (api_key : string) (settings : settings_store) :
  load_api_key (save_api_key api_key settings) =
    (if decide (api_key = "") then JNull else JStr api_key) /\
  load_api_key settings <> JStr "".
Proof.
  split.
  - unfold load_api_key, save_api_key, settings_value.
    rewrite lookup_insert_eq.
    destruct (decide (api_key = "")) as [-> | Hne]; [reflexivity |].
    simpl. apply String.eqb_neq in Hne. by rewrite Hne.
  - unfold load_api_key.
    destruct (py_truthy _) eqn:Htruthy; [| discriminate].
    intros Heq. rewrite Heq in Htruthy. discriminate.
Qed.

(** X14: the two settings do not interfere: saving the shortcut leaves
    the API key as it was, and saving the API key leaves the shortcut as
    it was. *)
Theorem settings_are_independent (text : string) (settings : settings_store) :
  load_api_key (save_send_shortcut text settings) = load_api_key settings /\
  load_send_shortcut (save_api_key text settings) = load_send_shortcut settings.
Proof.
  unfold load_api_key, load_send_shortcut, save_api_key, save_send_shortcut,
    settings_value.
  split; by rewrite lookup_insert_ne.
Qed.

Lemma before_underscore_spec (s : string) :
  ~ In "_"%char (list_ascii_of_string (before_underscore s)) /\
  exists rest,
    s = before_underscore s +:+ rest /\
    (rest = "" \/ exists tail, rest = String "_" tail).
Proof.
  induction s as [| c s (IHno & rest & IHsplit & IHrest)]; simpl.
  - split; [intros [] |]. exists "". split; [reflexivity | by left].
  - destruct (Ascii.eqb_spec c "_") as [-> | Hc]; simpl.
    + split; [intros [] |]. exists (String "_" s).
      split; [reflexivity | right; by eexists].
    + split; [intros [Heq | Hin]; [congruence | by apply IHno] |].
      exists rest. split; [| exact IHrest].
      change (String c s = String c (before_underscore s +:+ rest)).
      by f_equal.
Qed.

(** X15: [get_qgis_language] gives the stored locale up to its first
    underscore, so a language without underscore, and [en] when the
    locale is not set ([en_US] is the default) or is empty or None; a
    locale stored as a non-empty value that is not a str makes it raise
    AttributeError. *)
Theorem language_of_locale (settings : settings_store) :
  let locale := settings_value "locale/userLocale" (JStr "en_US") settings in
  (settings !! "locale/userLocale" = None ->
   get_qgis_language settings = Ok "en") /\
  (py_truthy locale = false -> get_qgis_language settings = Ok "en") /\
  (forall s, locale = JStr s -> s <> "" ->
     exists lang rest,
       get_qgis_language settings = Ok lang /\
       s = lang +:+ rest /\
       (rest = "" \/ exists tail, rest = String "_" tail) /\
       ~ In "_"%char (list_ascii_of_string lang)) /\
  (py_truthy locale = true -> (forall s, locale <> JStr s) ->
   get_qgis_language settings = Raise AttributeError).
Proof.
  intros locale. unfold get_qgis_language. fold locale. split_and!.
  - intros Hunset. unfold locale, settings_value. by rewrite Hunset.
  - by intros ->.
  - intros s Hs Hne. rewrite Hs. simpl.
    destruct (String.eqb_spec s "") as [-> | _]; [done |]. simpl.
    destruct (before_underscore_spec s) as (Hno & rest & Hsplit & Hrest).
    by exists (before_underscore s), rest.
  - intros Htruthy Hnot. rewrite Htruthy.
    destruct locale; try reflexivity. by destruct (Hnot s).
Qed.

(** ** The reply of the language model *)

Lemma check_fields_Ok (fields : list string) (d : dict) :
  check_fields fields (JObj d) = Ok () ->
  forall field, field ∈ fields -> is_Some (dict_lookup field d).
Proof.
  induction fields as [| f rest IH]; simpl; intros H field Hin.
  - by apply elem_of_nil in Hin.
  - destruct (dict_mem f d) eqn:Hmem; [| discriminate].
    apply elem_of_cons in Hin as [-> | Hin]; [| by apply IH].
    by apply dict_mem_is_Some.
Qed.

(** A reply that passes the validation is a dict in chat mode with a
    message or in query mode with every required field and a query that
    is not empty; it is returned unchanged. *)
Lemma validate_reply_Ok (parsed out : json) :
  validate_reply parsed = Ok out ->
  out = parsed /\
  exists d,
    parsed = JObj d /\
    ((dict_lookup "mode" d = Some (JStr "chat") /\
      is_Some (dict_lookup "message" d)) \/
     (dict_lookup "mode" d = Some (JStr "query") /\
      (forall field, field ∈ required_fields -> is_Some (dict_lookup field d)) /\
      exists query, dict_lookup "overpass_query" d = Some query /\
                    py_truthy query = true)).
Proof.
  unfold validate_reply. intros H.
  apply bind_inv_Ok in H as (present & Hpresent & H).
  destruct present; [| discriminate]. simpl in H.
  apply bind_inv_Ok in H as (mode & Hmode & H).
  destruct parsed as [| | | | | | d]; try discriminate.
  simpl in Hmode. unfold dict_item in Hmode.
  destruct (dict_lookup "mode" d) as [mode' |] eqn:Hlookup; [| discriminate].
  injection Hmode as ->.
  destruct (py_eq mode (JStr "chat")) eqn:Hchat.
  - apply py_eq_str in Hchat as ->. simpl in H.
    destruct (dict_mem "message" d) eqn:Hmsg; [| discriminate].
    injection H as <-. split; [reflexivity |]. exists d.
    split; [reflexivity |]. left. split; [done | by apply dict_mem_is_Some].
  - destruct (py_eq mode (JStr "query")) eqn:Hquery; [| discriminate].
    apply py_eq_str in Hquery as ->.
    apply bind_inv_Ok in H as ([] & Hfields & H).
    apply bind_inv_Ok in H as (query & Hq & H).
    destruct (py_truthy query) eqn:Htruthy; [| discriminate].
    injection H as <-. split; [reflexivity |]. exists d.
    split; [reflexivity |]. right. split; [done |].
    split; [by apply check_fields_Ok |].
    simpl in Hq. unfold dict_item in Hq.
    destruct (dict_lookup "overpass_query" d) as [q |]; [| discriminate].
    injection Hq as ->. by exists query.
Qed.


(** X17: what [call_llm_for_overpass] returns is the parsed content of
    the first choice, and it is a dict in mode [chat] with a [message],
    or in mode [query] with [description], [overpass_query],
    [expected_geometry] and [notes], the query not being empty: the
    caller's [llm_result["overpass_query"]] finds its key. *)
Theorem llm_reply_is_validated (env_key : option string)
    (settings : settings_store) (r : response) (reply : json) :
  call_llm_for_overpass env_key settings r = Ok reply ->
  (exists body choices choice message text,
     r = Body body /\
     subscript body "choices" = Ok choices /\
     first_of choices = Ok (Some choice) /\
     subscript choice "message" = Ok message /\
     subscript message "content" = Ok (JStr text) /\
     json_loads text = Some reply) /\
  exists d,
    reply = JObj d /\
    ((dict_lookup "mode" d = Some (JStr "chat") /\
      is_Some (dict_lookup "message" d)) \/
     (dict_lookup "mode" d = Some (JStr "query") /\
      (forall field, field ∈ required_fields -> is_Some (dict_lookup field d)) /\
      exists query, subscript reply "overpass_query" = Ok query /\
                    py_truthy query = true)).
Proof.
  unfold call_llm_for_overpass. intros H.
  destruct (negb _); [discriminate |].
  destruct r as [text | text | body]; [discriminate | discriminate |].
  destruct (reply_of_body body) as [parsed | err] eqn:Hbody;
    [| by destruct (is_RuntimeError err)].
  injection H as ->. unfold reply_of_body in Hbody.
  apply bind_inv_Ok in Hbody as (present & _ & Hbody).
  destruct (negb present); [discriminate |].
  apply bind_inv_Ok in Hbody as (choices & Hchoices & Hbody).
  apply bind_inv_Ok in Hbody as (first & Hfirst & Hbody).
  destruct first as [choice |]; [| discriminate].
  apply bind_inv_Ok in Hbody as (message & Hmessage & Hbody).
  apply bind_inv_Ok in Hbody as (content & Hcontent & Hbody).
  apply bind_inv_Ok in Hbody as (parsed & Hparsed & Hvalid).
  apply validate_reply_Ok in Hvalid as [-> (d & -> & Hshape)].
  unfold parse_content in Hparsed.
  destruct content as [| | | | text | |]; try discriminate.
  destruct (json_loads text) as [p |] eqn:Hloads; [| discriminate].
  injection Hparsed as ->.
  split; [by exists body, choices, choice, message, text |].
  exists d. split; [reflexivity |].
  destruct Hshape as [Hchat | (Hmode & Hfields & query & Hq & Htruthy)];
    [by left | right].
  split; [done |]. split; [done |]. exists query. split; [| done].
  simpl. unfold dict_item. by rewrite Hq.
Qed.

(** X18: without a non-empty key in the environment and in the settings,
    [call_llm_for_overpass] raises its "API key not found" RuntimeError
    whatever the request would come to; with a non-empty key in the
    environment, the settings play no part in the result. *)
Theorem api_key_resolution (settings : settings_store) (r : response) :
  (forall env_key,
     env_key = None \/ env_key = Some "" ->
     load_api_key settings = JNull ->
     call_llm_for_overpass env_key settings r =
       Raise (RuntimeError
                ("OpenAI API key not found. Set OPENAI_API_KEY environment "
                 +:+ "variable or configure it in plugin settings."))) /\
  (forall key settings',
     key <> "" ->
     call_llm_for_overpass (Some key) settings r =
       call_llm_for_overpass (Some key) settings' r).
Proof.
  split.
  - intros env_key [-> | ->] Hstored; unfold call_llm_for_overpass; simpl;
      by rewrite Hstored.
  - intros key settings' Hkey. unfold call_llm_for_overpass. simpl.
    by destruct (String.eqb_spec key "").
Qed.

(** ** A payload whose [elements] is not a list *)

(** X19: when [elements] is not a list, the conversion depends on what
    iterating it yields: the empty str and the empty dict give the empty
    collection, a non-empty str or dict yields strs and raises
    AttributeError at the first, and None, a bool or a number cannot be
    iterated and raises TypeError. *)
Theorem elements_that_are_not_a_list (payload : dict) (v : json) :
  dict_lookup "elements" payload = Some v ->
  (forall items, v <> JArr items) ->
  convert_overpass_to_geojson (JObj payload) =
    match v with
    | JStr EmptyString | JObj [] => Ok (feature_collection [])
    | JStr _ | JObj _ => Raise AttributeError
    | _ => Raise TypeError
    end.
Proof.
  intros Hels Hnot. unfold convert_overpass_to_geojson.
  change (as_dict (JObj payload)) with (Ok payload).
  rewrite bind_Ok. unfold dict_get. rewrite Hels.
  destruct v as [| b | z | q | [| c rest] | items | [| [key value] d]];
    try reflexivity.
  by destruct (Hnot items).
Qed.

End Conversion.

(** ** The theorems at sample elements *)

(** C1 at [{"remark": "runtime error"}]: the entry point raises the
    precondition error. *)
Lemma fetch_rejects_missing_element_list_witness :
  has_element_list (JObj [("remark", JStr "runtime error")]) = false /\
  fetch_osm_geojson plain_repr (Body (JObj [("remark", JStr "runtime error")])) =
    Raise (RuntimeError "Invalid Overpass API response: missing 'elements'").
Proof.
  split; [reflexivity |].
  exact (proj1 (proj2 (fetch_rejects_missing_element_list plain_repr
                         (JObj [("remark", JStr "runtime error")]) eq_refl)
                  _ eq_refl)).
Defined.

(** C1 as stated fails at [{"remark": "runtime error"}]: the conversion
    call itself returns the empty feature collection as a success. *)
Lemma converter_accepts_missing_element_list :
  has_element_list (JObj [("remark", JStr "runtime error")]) = false /\
  convert_overpass_to_geojson plain_repr
    (JObj [("remark", JStr "runtime error")]) = Ok (feature_collection []) /\
  ~ (exists e,
       convert_overpass_to_geojson plain_repr
         (JObj [("remark", JStr "runtime error")]) = Raise e).
Proof.
  split; [reflexivity |]. split; [reflexivity |].
  intros (e & He). discriminate He.
Qed.

(** C3 at node A: the id is [node/1], the pair is [[139.5, 35.5]]. *)
Lemma point_feature_of_node_witness :
  convert_node_to_feature plain_repr node_a =
    Some (feature "node/1" "Point" (JArr [JFloat (279 # 2); JFloat (71 # 2)])
            (JObj [("name", JStr "A")])).
Proof.
  refine (proj1 (point_feature_of_node plain_repr node_a)
            (JFloat (71 # 2)) (JFloat (279 # 2)) eq_refl eq_refl _ _);
    discriminate.
Defined.

(** C4 at the three-pair way whose ends are equal: a LineString, though
    it has [building] and [area=yes]. *)
Lemma closed_iff_four_pairs_and_equal_ends_witness :
  way_coordinates way_spike nodes_ac =
    Ok [JArr [JInt 0; JInt 0]; JArr [JInt 1; JInt 0]; JArr [JInt 0; JInt 0]] /\
  convert_way_to_feature plain_repr way_spike nodes_ac =
    Ok (Some (feature "way/6" "LineString"
                (JArr [JArr [JInt 0; JInt 0]; JArr [JInt 1; JInt 0];
                       JArr [JInt 0; JInt 0]])
                (JObj [("building", JStr "yes"); ("area", JStr "yes")]))).
Proof.
  split; [reflexivity |].
  exact (proj2 (proj2 (closed_iff_four_pairs_and_equal_ends plain_repr
                         way_spike nodes_ac _ eq_refl)) eq_refl).
Defined.

(** C5 at the square with [building=yes]: a Polygon of one ring. *)
Lemma area_or_line_witness :
  way_coordinates way_square nodes_ac =
    Ok [JArr [JInt 0; JInt 0]; JArr [JInt 1; JInt 0];
        JArr [JInt 1; JInt 1]; JArr [JInt 0; JInt 0]] /\
  convert_way_to_feature plain_repr way_square nodes_ac =
    Ok (Some (feature "way/5" "Polygon"
                (JArr [JArr [JArr [JInt 0; JInt 0]; JArr [JInt 1; JInt 0];
                             JArr [JInt 1; JInt 1]; JArr [JInt 0; JInt 0]]])
                (JObj [("building", JStr "yes")]))).
Proof.
  split; [reflexivity |].
  refine (proj1 (proj1 (area_or_line plain_repr way_square nodes_ac _
                          eq_refl _)
                   [("building", JStr "yes")] _ eq_refl) _).
  - simpl. lia.
  - apply is_closed_spec. reflexivity.
  - apply area_tags_spec. reflexivity.
Defined.

(** C6 at a way with a single embedded pair. *)
Lemma short_path_gives_no_feature_witness :
  way_coordinates way_dot nodes_ac = Ok [JArr [JInt 0; JInt 0]] /\
  convert_way_to_feature plain_repr way_dot nodes_ac = Ok None.
Proof.
  split; [reflexivity |].
  refine (short_path_gives_no_feature plain_repr way_dot nodes_ac
            [JArr [JInt 0; JInt 0]] eq_refl _).
  simpl. lia.
Defined.

(** C7 at the node list [[1, 2, 3]] with the nodes 1 and 3 indexed: the
    converter returns a LineString of 2 points. *)
Lemma missing_references_are_omitted_witness :
  build_nodes [JObj node_a; JObj node_c] ∅ = Ok nodes_ac /\
  nodes_ac !! int_key 2 = None /\
  way_coordinates way_b nodes_ac =
    Ok [JArr [JFloat (279 # 2); JFloat (71 # 2)]; JArr [JInt 140; JInt 36]] /\
  convert_way_to_feature plain_repr way_b nodes_ac =
    Ok (Some (feature "way/9" "LineString"
                (JArr [JArr [JFloat (279 # 2); JFloat (71 # 2)];
                       JArr [JInt 140; JInt 36]])
                (JObj [("highway", JStr "residential")]))).
Proof.
  assert (Forall2 (fun id k => hash_key id = Ok k)
            [JInt 1; JInt 2; JInt 3] [int_key 1; int_key 2; int_key 3])
    as Hkeys by repeat constructor.
  pose proof (missing_references_are_omitted plain_repr
                [JObj node_a; JObj node_c] nodes_ac way_b
                [JInt 1; JInt 2; JInt 3] [int_key 1; int_key 2; int_key 3]
                eq_refl eq_refl eq_refl Hkeys) as H.
  split; [reflexivity |]. split; [reflexivity |].
  split; [exact (proj1 H) |].
  exact (proj2 (proj2 (proj2 H)) (int_key 1) (int_key 2) (int_key 3)
           (node_entry node_a) (node_entry node_c)
           eq_refl eq_refl eq_refl eq_refl).
Defined.

(** C8 at the square, which has node references besides its geometry. *)
Lemma embedded_geometry_has_priority_witness :
  dict_lookup "nodes" way_square = Some (JArr [JInt 1; JInt 3]) /\
  way_coordinates way_square nodes_ac =
    Ok [JArr [JInt 0; JInt 0]; JArr [JInt 1; JInt 0];
        JArr [JInt 1; JInt 1]; JArr [JInt 0; JInt 0]].
Proof.
  split; [reflexivity |].
  refine (proj1 (embedded_geometry_has_priority way_square nodes_ac
                   [at_ 0 0; at_ 0 1; at_ 1 1; at_ 0 0] _ eq_refl _)).
  repeat constructor.
Defined.

(** C9 at the elements [[A, B, C]]. *)
Lemma features_keep_element_order_witness :
  convert_overpass_to_geojson plain_repr (JObj payload_abc) =
    Ok (feature_collection
          [feature "node/1" "Point" (JArr [JFloat (279 # 2); JFloat (71 # 2)])
             (JObj [("name", JStr "A")]);
           feature "way/9" "LineString"
             (JArr [JArr [JFloat (279 # 2); JFloat (71 # 2)];
                    JArr [JInt 140; JInt 36]])
             (JObj [("highway", JStr "residential")]);
           feature "node/3" "Point" (JArr [JInt 140; JInt 36]) (JObj [])]).
Proof.
  refine (proj2 (features_keep_element_order plain_repr payload_abc
                   [JObj node_a; JObj way_b; JObj node_c] nodes_ac
                   [Some _; Some _; Some _] eq_refl eq_refl _)
            _ _ _ eq_refl).
  repeat constructor.
Defined.

(** C10 at the bare node 4 and the ways that refer to it. *)
Lemma null_coordinates_are_indexed_witness :
  build_nodes [JObj node_a; JObj node_c; JObj node_bare; JObj way_bare] ∅ =
    Ok nodes_acb /\
  nodes_acb !! int_key 4 = Some [("lat", JNull); ("lon", JNull)] /\
  convert_way_to_feature plain_repr way_bare nodes_acb =
    Ok (Some (feature "way/10" "LineString"
                (JArr [JArr [JNull; JNull]; JArr [JNull; JNull]])
                (JObj []))).
Proof.
  assert (Forall (fun element => ~ binds (int_key 4) element) [JObj way_bare])
    as Hfree.
  { constructor; [| constructor].
    intros (e & id & He & Hnode & _). injection He as <-. discriminate Hnode. }
  pose proof (null_coordinates_are_indexed plain_repr
                [JObj node_a; JObj node_c] [JObj way_bare] node_bare
                (JInt 4) (int_key 4) nodes_acb
                eq_refl eq_refl eq_refl Hfree eq_refl) as H.
  split; [reflexivity |]. split; [exact (proj1 H) |].
  exact (proj1 (proj2 (proj2 (proj2 (proj2 H)))) way_bare eq_refl eq_refl).
Defined.

(** ** Further examples *)

(** The whole conversion of [[1, 2, 3]] with node 2 missing: a line of two
    points. *)
Example line_of_two_indexed_nodes :
  convert_overpass_to_geojson plain_repr
    (JObj [("elements", JArr [JObj node_a; JObj node_c; JObj way_b])]) =
  Ok (feature_collection
        [feature "node/1" "Point" (JArr [JFloat (279 # 2); JFloat (71 # 2)])
           (JObj [("name", JStr "A")]);
         feature "node/3" "Point" (JArr [JInt 140; JInt 36]) (JObj []);
         feature "way/9" "LineString"
           (JArr [JArr [JFloat (279 # 2); JFloat (71 # 2)];
                  JArr [JInt 140; JInt 36]])
           (JObj [("highway", JStr "residential")])]).
Proof. reflexivity. Qed.

(** A payload with one relation converts to the empty collection. *)
Example relation_only_payload :
  fetch_osm_geojson plain_repr (Body (JObj payload_relation)) =
    Ok (feature_collection []).
Proof. reflexivity. Qed.

(** A ring that starts and ends at the bare node closes on the pair
    [[None, None]] and, with [building], becomes a Polygon. *)
Example ring_closed_by_null_pairs :
  convert_way_to_feature plain_repr way_ring_bare nodes_acb =
    Ok (Some (feature "way/11" "Polygon"
                (JArr [JArr [JArr [JNull; JNull];
                             JArr [JFloat (279 # 2); JFloat (71 # 2)];
                             JArr [JInt 140; JInt 36];
                             JArr [JNull; JNull]]])
                (JObj [("building", JStr "yes")]))).
Proof. reflexivity. Qed.

(** The square with [highway=residential] instead is a LineString. *)
Example square_road_is_a_line :
  convert_way_to_feature plain_repr
    [("id", JInt 5);
     ("geometry", JArr [at_ 0 0; at_ 0 1; at_ 1 1; at_ 0 0]);
     ("tags", JObj [("highway", JStr "residential")])] ∅ =
    Ok (Some (feature "way/5" "LineString"
                (JArr [JArr [JInt 0; JInt 0]; JArr [JInt 1; JInt 0];
                       JArr [JInt 1; JInt 1]; JArr [JInt 0; JInt 0]])
                (JObj [("highway", JStr "residential")]))).
Proof. reflexivity. Qed.

(** A node element without [id] stops the first loop with a KeyError,
    although [convert_node_to_feature] alone would print its id as
    [None]. *)
Example node_without_id :
  convert_overpass_to_geojson plain_repr
    (JObj [("elements", JArr [JObj [("type", JStr "node");
                                    ("lat", JInt 1); ("lon", JInt 2)]])]) =
    Raise (KeyError "id") /\
  convert_node_to_feature plain_repr
    [("type", JStr "node"); ("lat", JInt 1); ("lon", JInt 2)] =
    Some (feature "node/None" "Point" (JArr [JInt 2; JInt 1]) (JObj [])).
Proof. split; reflexivity. Qed.

(** ** The further theorems at sample elements *)

Lemma at_most_one_feature_per_element_witness :
  convert_overpass_to_geojson plain_repr (JObj payload_abc) =
    Ok (feature_collection features_abc) /\
  length features_abc <= 3.
Proof.
  split; [reflexivity |].
  exact (at_most_one_feature_per_element plain_repr payload_abc
           [JObj node_a; JObj way_b; JObj node_c] features_abc
           eq_refl eq_refl).
Defined.

Lemma features_come_from_nodes_and_ways_witness :
  exists nodes,
    build_nodes [JObj node_a; JObj way_b; JObj node_c] ∅ = Ok nodes /\
    forall f, f ∈ features_abc ->
      exists e, JObj e ∈ [JObj node_a; JObj way_b; JObj node_c] /\
        ((is_node e = true /\ convert_node_to_feature plain_repr e = Some f) \/
         (is_node e = false /\ is_way e = true /\
          convert_way_to_feature plain_repr e nodes = Ok (Some f))).
Proof.
  exact (features_come_from_nodes_and_ways plain_repr payload_abc
           [JObj node_a; JObj way_b; JObj node_c] features_abc
           eq_refl eq_refl).
Defined.

Lemma features_of_concatenation_witness :
  process_elements plain_repr [JObj node_a; JObj way_b; JObj node_c]
    nodes_ac [] = Ok features_abc.
Proof.
  exact (features_of_concatenation plain_repr nodes_ac
           [JObj node_a] [JObj way_b; JObj node_c] _ _ eq_refl eq_refl).
Defined.

Lemma unsupported_element_has_no_effect_witness :
  convert_overpass_to_geojson plain_repr
    (JObj [("version", JFloat (3 # 5));
           ("elements",
            JArr [JObj node_a;
                  JObj [("type", JStr "relation"); ("id", JInt 12)];
                  JObj way_b; JObj node_c])]) =
  convert_overpass_to_geojson plain_repr (JObj payload_abc).
Proof.
  exact (unsupported_element_has_no_effect plain_repr
           [("version", JFloat (3 # 5));
            ("elements",
             JArr [JObj node_a;
                   JObj [("type", JStr "relation"); ("id", JInt 12)];
                   JObj way_b; JObj node_c])]
           payload_abc
           [("type", JStr "relation"); ("id", JInt 12)]
           [JObj node_a] [JObj way_b; JObj node_c]
           eq_refl eq_refl eq_refl eq_refl).
Defined.

Lemma fetch_raises_only_RuntimeError_witness :
  fetch_osm_geojson plain_repr (RequestException "Read timed out.") =
    Raise (RuntimeError "Overpass API request failed: Read timed out.") /\
  is_RuntimeError
    (RuntimeError "Overpass API request failed: Read timed out.") = true.
Proof.
  split; [reflexivity |].
  exact (fetch_raises_only_RuntimeError plain_repr
           (RequestException "Read timed out.") _ eq_refl).
Defined.

Lemma fetch_returns_the_conversion_witness :
  dict_mem "elements" payload_abc = true /\
  fetch_osm_geojson plain_repr (Body (JObj payload_abc)) =
    Ok (feature_collection features_abc).
Proof.
  split; [reflexivity |].
  exact (fetch_returns_the_conversion plain_repr payload_abc eq_refl).
Defined.

Lemma well_formed_payload_converts_witness :
  Forall element_well_formed [JObj node_a; JObj way_b; JObj node_c] /\
  exists features,
    convert_overpass_to_geojson plain_repr (JObj payload_abc) =
      Ok (feature_collection features).
Proof.
  assert (Forall element_well_formed [JObj node_a; JObj way_b; JObj node_c])
    as Hwf.
  { repeat constructor.
    - exists node_a. split; [reflexivity |]. split.
      + intros _. exists (JInt 1). by split.
      + intros Hnode. discriminate Hnode.
    - exists way_b. split; [reflexivity |]. split.
      + intros Hnode. discriminate Hnode.
      + intros _ _. split.
        * exists [JInt 1; JInt 2; JInt 3]. split; [reflexivity |].
          by repeat constructor.
        * by eexists.
    - exists node_c. split; [reflexivity |]. split.
      + intros _. exists (JInt 3). by split.
      + intros Hnode. discriminate Hnode. }
  split; [exact Hwf |].
  exact (well_formed_payload_converts plain_repr payload_abc
           [JObj node_a; JObj way_b; JObj node_c] eq_refl Hwf).
Defined.

Lemma way_feature_shape_witness :
  exists coordinates,
    way_coordinates way_square nodes_ac = Ok coordinates /\
    2 <= length coordinates /\
    (feature "way/5" "Polygon"
       (JArr [JArr [JArr [JInt 0; JInt 0]; JArr [JInt 1; JInt 0];
                    JArr [JInt 1; JInt 1]; JArr [JInt 0; JInt 0]]])
       (JObj [("building", JStr "yes")]) =
       feature "way/5" "LineString" (JArr coordinates)
         (JObj [("building", JStr "yes")]) \/
     (feature "way/5" "Polygon"
        (JArr [JArr [JArr [JInt 0; JInt 0]; JArr [JInt 1; JInt 0];
                     JArr [JInt 1; JInt 1]; JArr [JInt 0; JInt 0]]])
        (JObj [("building", JStr "yes")]) =
        feature "way/5" "Polygon" (JArr [JArr coordinates])
          (JObj [("building", JStr "yes")]) /\
      closed_path coordinates /\
      exists t, JObj [("building", JStr "yes")] = JObj t /\ area_tagged t)).
Proof.
  exact (way_feature_shape plain_repr way_square nodes_ac _ eq_refl).
Defined.

Lemma coordinates_are_pairs_witness :
  Forall (fun c => exists lon lat, c = JArr [lon; lat])
    [JArr [JFloat (279 # 2); JFloat (71 # 2)]; JArr [JInt 140; JInt 36]].
Proof.
  exact (proj1 (coordinates_are_pairs [JObj node_a; JObj node_c] nodes_ac
                  way_b _ eq_refl eq_refl)).
Defined.

Lemma node_lookup_entries_come_from_nodes_witness :
  exists node,
    JObj node ∈ [JObj node_a; JObj way_b; JObj node_c] /\
    binds (int_key 3) (JObj node) /\
    [("lat", JInt 36); ("lon", JInt 140)] = node_entry node.
Proof.
  exact (node_lookup_entries_come_from_nodes
           [JObj node_a; JObj way_b; JObj node_c] nodes_ac (int_key 3) _
           eq_refl eq_refl).
Defined.

Lemma elements_that_are_not_a_list_witness :
  convert_overpass_to_geojson plain_repr (JObj [("elements", JNull)]) =
    Raise TypeError.
Proof.
  refine (elements_that_are_not_a_list plain_repr [("elements", JNull)] JNull
            eq_refl _).
  discriminate.
Defined.


Lemma llm_reply_is_validated_witness :
  call_llm_for_overpass plain_repr sample_loads (Some "sk-env") ∅
    (Body chat_body) = Ok chat_reply /\
  exists d,
    chat_reply = JObj d /\
    ((dict_lookup "mode" d = Some (JStr "chat") /\
      is_Some (dict_lookup "message" d)) \/
     (dict_lookup "mode" d = Some (JStr "query") /\
      (forall field, field ∈ required_fields -> is_Some (dict_lookup field d)) /\
      exists query, subscript chat_reply "overpass_query" = Ok query /\
                    py_truthy query = true)).
Proof.
  split; [reflexivity |].
  exact (proj2 (llm_reply_is_validated plain_repr sample_loads (Some "sk-env")
                  ∅ (Body chat_body) chat_reply eq_refl)).
Defined.

Lemma api_key_resolution_witness :
  load_api_key (∅ : gmap string json) = JNull /\
  call_llm_for_overpass plain_repr sample_loads (Some "") ∅ (Body chat_body) =
    Raise (RuntimeError
             ("OpenAI API key not found. Set OPENAI_API_KEY environment "
              +:+ "variable or configure it in plugin settings.")).
Proof.
  split; [reflexivity |].
  exact (proj1 (api_key_resolution plain_repr sample_loads ∅ (Body chat_body))
           (Some "") (or_intror eq_refl) eq_refl).
Defined.

Lemma language_of_locale_witness :
  get_qgis_language sample_settings = Ok "ja".
Proof.
  destruct (proj1 (proj2 (proj2 (language_of_locale sample_settings)))
              "ja_JP" eq_refl ltac:(discriminate))
    as (lang & rest & Hlang & _).
  rewrite Hlang. f_equal.
  assert (get_qgis_language sample_settings = Ok "ja") as Hja by reflexivity.
  congruence.
Defined.
